(** * Workflow YAML validator of the GitHub Actions MCP server

    Shallow embedding of [validate_workflow]
    (awslabs/github_actions_mcp_server/helpers.py) and the properties
    of its validation report.

    The function parses its argument with [yaml.safe_load], then walks
    the resulting Python object with duck-typed operations ([in],
    iteration, [.get], [.items], [.startswith]).  Each of them can
    raise; the whole body sits in a [try] with two handlers.  The
    embedding therefore has three layers:

    - [Py]: the Python objects a safe loader builds, the exceptions,
      and the dynamic operations the validator applies to the objects;
    - the validator itself, over an arbitrary parser (a section
      variable: PyYAML is a library, not code of the repository);
    - the properties.

    Scope of the object model: [None], [bool], [int], [str], [list],
    [dict], [set], [tuple] (the elements of [!!omap] and [!!pairs]
    lists) and the remaining scalars ([float], [datetime.date],
    [datetime.datetime]) as objects with a class name, a truth value
    and a text.  [!!binary] values ([bytes]) and cyclic documents
    (an anchor aliased inside itself) are outside the model.  The
    exception texts are those of CPython 3.8 to 3.13. *)

From Stdlib Require Import String Ascii List ZArith Bool Lia DecimalString.
Import ListNotations.
Local Open Scope list_scope.
Local Open Scope string_scope.

Set Implicit Arguments.

(* ===================================================================== *)
(** * Python objects, exceptions and dynamic operations *)
(* ===================================================================== *)

Module Py.

(** The exception classes in play.  All of them derive from
    [Exception]; [YAMLError] stands for [yaml.YAMLError] and its
    subclasses (scanner, parser, composer and constructor errors),
    [OtherException] for any other class derived from [Exception],
    by name (the loader raises [ValueError] on an out-of-range
    timestamp, [RecursionError] on a deeply nested text). *)
Inductive exc_class : Type :=
| Exception
| YAMLError
| TypeError
| AttributeError
| KeyError
| OtherException (name : string).

Definition exc_class_eqb (c d : exc_class) : bool :=
  match c, d with
  | Exception, Exception | YAMLError, YAMLError | TypeError, TypeError
  | AttributeError, AttributeError | KeyError, KeyError => true
  | OtherException a, OtherException b => String.eqb a b
  | _, _ => false
  end.

(** [issubclass c d]: every class is its own subclass and a subclass of
    [Exception]; the other classes are unrelated to each other. *)
Definition issubclass (c d : exc_class) : bool :=
  match d with
  | Exception => true
  | _ => exc_class_eqb c d
  end.

(** An exception object: its class and [str(e)]. *)
Record exn : Type := mk_exn { exn_class : exc_class; exn_str : string }.

(** A computation returns a value or raises. *)
Inductive result (A : Type) : Type :=
| Ok (a : A)
| Raise (e : exn).

Arguments Ok {A} a.
Arguments Raise {A} e.

Definition bind {A B : Type} (m : result A) (k : A -> result B) : result B :=
  match m with
  | Ok a => k a
  | Raise e => Raise e
  end.

(** [try: body  except c1 as e: h1 e  except c2 as e: h2 e ...]: the
    first clause whose class the exception is an instance of handles
    it; an exception no clause matches propagates. *)
Definition handler (A : Type) : Type := (exc_class * (exn -> result A))%type.

Fixpoint dispatch {A : Type} (handlers : list (handler A)) (e : exn) : result A :=
  match handlers with
  | [] => Raise e
  | (c, h) :: rest =>
      if issubclass (exn_class e) c then h e else dispatch rest e
  end.

Definition try_except {A : Type} (body : result A) (handlers : list (handler A))
  : result A :=
  match body with
  | Ok a => Ok a
  | Raise e => dispatch handlers e
  end.

(** Hashable scalars: what a safe loader accepts as a mapping key. *)
Inductive scalar : Type :=
| SNone
| SBool (b : bool)
| SInt (z : Z)
| SStr (s : string)
| SOther (type_name : string) (truth : bool) (text : string).

(** Objects.  A [dict] keeps its insertion order, which is the order
    of the warnings, so it is an association list. *)
#[warnings="-register-all"]
Inductive value : Type :=
| VScalar (k : scalar)
| VList (l : list value)
| VTuple (l : list value)
| VDict (d : list (scalar * value))
| VSet (l : list scalar).

Definition VNone : value := VScalar SNone.
Definition VStr (s : string) : value := VScalar (SStr s).

Definition scalar_type_name (k : scalar) : string :=
  match k with
  | SNone => "NoneType"
  | SBool _ => "bool"
  | SInt _ => "int"
  | SStr _ => "str"
  | SOther n _ _ => n
  end.

Definition type_name (v : value) : string :=
  match v with
  | VScalar k => scalar_type_name k
  | VList _ => "list"
  | VTuple _ => "tuple"
  | VDict _ => "dict"
  | VSet _ => "set"
  end.

(** [str(k)], as an f-string field formats a key. *)
Definition py_str (k : scalar) : string :=
  match k with
  | SNone => "None"
  | SBool true => "True"
  | SBool false => "False"
  | SInt z => NilZero.string_of_int (Z.to_int z)
  | SStr s => s
  | SOther _ _ text => text
  end.

(** [bool(v)], the test behind [not v] and [if v]. *)
Definition scalar_truthy (k : scalar) : bool :=
  match k with
  | SNone => false
  | SBool b => b
  | SInt z => negb (Z.eqb z 0)
  | SStr s => negb (String.eqb s "")
  | SOther _ truth _ => truth
  end.

Definition nonempty {A : Type} (l : list A) : bool :=
  match l with [] => false | _ :: _ => true end.

Definition py_truthy (v : value) : bool :=
  match v with
  | VScalar k => scalar_truthy k
  | VList l => nonempty l
  | VTuple l => nonempty l
  | VDict d => nonempty d
  | VSet l => nonempty l
  end.

(** [k == s] for a [str] literal [s]: only an equal [str] is equal. *)
Definition scalar_eq_str (s : string) (k : scalar) : bool :=
  match k with
  | SStr t => String.eqb t s
  | _ => false
  end.

Definition value_eq_str (s : string) (v : value) : bool :=
  match v with
  | VScalar k => scalar_eq_str s k
  | _ => false
  end.

(** [needle in hay] on two [str]: substring search. *)
Fixpoint str_contains (needle hay : string) : bool :=
  String.prefix needle hay
  || match hay with
     | EmptyString => false
     | String _ rest => str_contains needle rest
     end.

Definition attribute_error {A : Type} (v : value) (attr : string) : result A :=
  Raise (mk_exn AttributeError
           ("'" ++ type_name v ++ "' object has no attribute '" ++ attr ++ "'")).

Definition type_error {A : Type} (msg : string) : result A :=
  Raise (mk_exn TypeError msg).

(** [s in c] for a [str] literal [s]. *)
Definition py_in (s : string) (c : value) : result bool :=
  match c with
  | VDict d => Ok (existsb (fun kv => scalar_eq_str s (fst kv)) d)
  | VList l => Ok (existsb (value_eq_str s) l)
  | VTuple l => Ok (existsb (value_eq_str s) l)
  | VSet l => Ok (existsb (scalar_eq_str s) l)
  | VScalar (SStr hay) => Ok (str_contains s hay)
  | VScalar _ =>
      type_error ("argument of type '" ++ type_name c ++ "' is not iterable")
  end.

Definition chars (s : string) : list value :=
  map (fun a => VStr (String a EmptyString)) (list_ascii_of_string s).

(** [for x in c]: the sequence of objects the loop visits. *)
Definition py_iter (c : value) : result (list value) :=
  match c with
  | VDict d => Ok (map (fun kv => VScalar (fst kv)) d)
  | VList l => Ok l
  | VTuple l => Ok l
  | VSet l => Ok (map VScalar l)
  | VScalar (SStr s) => Ok (chars s)
  | VScalar _ => type_error ("'" ++ type_name c ++ "' object is not iterable")
  end.

(** Lookup of a [str] key in a [dict]. *)
Fixpoint dict_lookup (s : string) (d : list (scalar * value)) : option value :=
  match d with
  | [] => None
  | (k, v) :: rest => if scalar_eq_str s k then Some v else dict_lookup s rest
  end.

(** [obj.get(s, default)]. *)
Definition py_get (obj : value) (s : string) (default : value) : result value :=
  match obj with
  | VDict d =>
      Ok (match dict_lookup s d with Some v => v | None => default end)
  | _ => attribute_error obj "get"
  end.

(** [obj.items()]. *)
Definition py_items (obj : value) : result (list (scalar * value)) :=
  match obj with
  | VDict d => Ok d
  | _ => attribute_error obj "items"
  end.

(** [obj[s]] for a [str] literal [s].  Only the [dict] case is reached
    by the validator; the text for the other classes is CPython's
    generic one. *)
Definition py_getitem (obj : value) (s : string) : result value :=
  match obj with
  | VDict d =>
      match dict_lookup s d with
      | Some v => Ok v
      | None => Raise (mk_exn KeyError ("'" ++ s ++ "'"))
      end
  | _ => type_error ("'" ++ type_name obj ++ "' object is not subscriptable")
  end.

(** [obj.startswith(p)] for a [str] literal [p]. *)
Definition py_startswith (obj : value) (p : string) : result bool :=
  match obj with
  | VScalar (SStr s) => Ok (String.prefix p s)
  | _ => attribute_error obj "startswith"
  end.

End Py.

Import Py.

Declare Scope py_scope.
Delimit Scope py_scope with py.
Notation "x <- m ;; k" := (bind m (fun x => k))
  (at level 61, m at next level, right associativity) : py_scope.
Local Open Scope py_scope.

(* ===================================================================== *)
(** * The validation report *)
(* ===================================================================== *)

(** The dictionary [validation_results]: keys ['valid'], ['warnings'],
    ['suggestions']. *)
Record report : Type := mk_report {
  valid : bool;
  warnings : list string;
  suggestions : list string
}.

(** [validation_results['valid'] = b] *)
Definition set_valid (b : bool) (r : report) : report :=
  mk_report b (warnings r) (suggestions r).

(** [validation_results['warnings'].append(w)] *)
Definition add_warning (w : string) (r : report) : report :=
  mk_report (valid r) (warnings r ++ [w])%list (suggestions r).

(** [validation_results['suggestions'].append(s)] *)
Definition add_suggestion (s : string) (r : report) : report :=
  mk_report (valid r) (warnings r) (suggestions r ++ [s])%list.

Definition fresh_report : report := mk_report true [] [].

(* ===================================================================== *)
(** * validate_workflow *)
(* ===================================================================== *)

Definition checkout_hint : string :=
  "Consider adding actions/checkout step to access repository files".

(** [key is True or key == 'on'] *)
Definition is_trigger_key (key : value) : bool :=
  match key with
  | VScalar (SBool true) => true
  | VScalar (SStr s) => String.eqb s "on"
  | _ => false
  end.

(** The loop of lines 390-394, which sets [has_on] and breaks at the
    first trigger key. *)
Definition has_on (yaml_content : value) : result bool :=
  keys <- py_iter yaml_content ;;
  Ok (existsb is_trigger_key keys).

(** One iteration of the [# Check jobs] loop (lines 407-415): the
    [continue] of the empty job, then two separate tests. *)
Definition check_job (job_id : scalar) (job : value) (vr : report) : result report :=
  if negb (py_truthy job) then
    Ok (add_warning ("Empty job: " ++ py_str job_id) vr)
  else
    has_runs_on <- py_in "runs-on" job ;;
    let vr := if has_runs_on then vr
              else add_warning ("Missing runs-on in job: " ++ py_str job_id) vr in
    has_steps <- py_in "steps" job ;;
    Ok (if has_steps then vr
        else add_warning ("Missing steps in job: " ++ py_str job_id) vr).

(** The loop of line 406 over [.items()]. *)
Fixpoint check_jobs (items : list (scalar * value)) (vr : report) : result report :=
  match items with
  | [] => Ok vr
  | (job_id, job) :: rest =>
      vr' <- check_job job_id job vr ;;
      check_jobs rest vr'
  end.

(** The inner loop of the checkout scan (lines 422-425): [Ok true]
    when it breaks with [has_checkout] set, [Ok false] when it runs
    off the end. *)
Fixpoint scan_steps (steps : list value) : result bool :=
  match steps with
  | [] => Ok false
  | step :: rest =>
      uses <- py_get step "uses" (VStr "") ;;
      hit <- py_startswith uses "actions/checkout@" ;;
      if hit then Ok true else scan_steps rest
  end.

(** The outer loop (lines 421-427): it leaves as soon as a job set
    [has_checkout]. *)
Fixpoint scan_jobs (items : list (scalar * value)) : result bool :=
  match items with
  | [] => Ok false
  | (_, job) :: rest =>
      steps_obj <- py_get job "steps" (VList []) ;;
      steps <- py_iter steps_obj ;;
      has_checkout <- scan_steps steps ;;
      if has_checkout then Ok true else scan_jobs rest
  end.

(** [# Check for best practices] (lines 418-432). *)
Definition check_best_practices (yaml_content : value) (vr : report) : result report :=
  jobs <- py_get yaml_content "jobs" VNone ;;
  if py_truthy jobs then
    jobs' <- py_getitem yaml_content "jobs" ;;
    items <- py_items jobs' ;;
    has_checkout <- scan_jobs items ;;
    Ok (if has_checkout then vr else add_suggestion checkout_hint vr)
  else Ok vr.

(** ['name' not in yaml_content] (lines 386-387). *)
Definition check_name (yaml_content : value) (vr : report) : result report :=
  has_name <- py_in "name" yaml_content ;;
  Ok (if has_name then vr else add_warning "Missing workflow name" vr).

(** The [has_on] loop and the test after it (lines 390-398). *)
Definition check_on (yaml_content : value) (vr : report) : result report :=
  on <- has_on yaml_content ;;
  Ok (if on then vr
      else add_warning "Missing trigger events (on:)" (set_valid false vr)).

(** Everything after the [has_on] test (lines 400-434): the early
    return without ['jobs'], the per-job loop, the scan. *)
Definition check_jobs_section (yaml_content : value) (vr : report) : result report :=
  has_jobs <- py_in "jobs" yaml_content ;;
  if negb has_jobs then
    Ok (add_warning "Missing jobs section" (set_valid false vr))
  else
    jobs <- py_get yaml_content "jobs" (VDict []) ;;
    items <- py_items jobs ;;
    vr' <- check_jobs items vr ;;
    check_best_practices yaml_content vr'.

(** The checks on a parsed document (lines 374-434);
    [validation_results] is threaded through the stages. *)
Definition validate_document (yaml_content : value) : result report :=
  let vr := fresh_report in
  if negb (py_truthy yaml_content) then
    Ok (add_warning "Empty workflow file" (set_valid false vr))
  else
    vr1 <- check_name yaml_content vr ;;
    vr2 <- check_on yaml_content vr1 ;;
    check_jobs_section yaml_content vr2.

(** The reports of the two handlers (lines 435-447). *)
Definition invalid_yaml (e : exn) : report :=
  mk_report false ["Invalid YAML: " ++ exn_str e] [].

Definition validation_error (e : exn) : report :=
  mk_report false ["Validation error: " ++ exn_str e] [].

Section Validator.

(** [yaml.safe_load]: the object built from the text, or the
    exception the loader raises. *)
Variable safe_load : string -> result value.

(** The body of the [try] (lines 369-434). *)
Definition validate_body (content : string) : result report :=
  yaml_content <- safe_load content ;;
  validate_document yaml_content.

(** The function.  It is a coroutine without any [await]: awaiting it
    runs the body to its [return]. *)
Definition validate_workflow (content : string) : result report :=
  try_except (validate_body content)
    [ (YAMLError, fun e => Ok (invalid_yaml e));
      (Exception, fun e => Ok (validation_error e)) ].

End Validator.

(* ===================================================================== *)
(** * Documents used as concrete inputs *)
(* ===================================================================== *)

(** What [yaml.safe_load] (PyYAML, YAML 1.1) builds for a few texts,
    written in flow style.  A plain [on] resolves to the boolean
    [True], [null] to [None]. *)
Module Samples.

Definition job_with_checkout : value :=
  VDict [ (SStr "runs-on", VStr "ubuntu-latest");
          (SStr "steps", VList [ VDict [(SStr "uses", VStr "actions/checkout@v3")];
                                 VDict [(SStr "run", VStr "echo hi")] ]) ].

Definition job_without_checkout : value :=
  VDict [ (SStr "runs-on", VStr "ubuntu-latest");
          (SStr "steps", VList [ VDict [(SStr "run", VStr "echo hi")] ]) ].

Definition trigger : value :=
  VDict [ (SStr "push", VDict [ (SStr "branches", VList [VStr "main"]) ]) ].

Definition workflow (jobs : value) : value :=
  VDict [ (SStr "name", VStr "CI"); (SBool true, VStr "push"); (SStr "jobs", jobs) ].

Definition unnamed_workflow (jobs : value) : value :=
  VDict [ (SBool true, VStr "push"); (SStr "jobs", jobs) ].

Definition table : list (string * result value) :=
  [ ("{name: CI, on: {push: {branches: [main]}}, jobs: {build: {runs-on: ubuntu-latest, steps: [{uses: actions/checkout@v3}, {run: echo hi}]}}}",
     Ok (VDict [ (SStr "name", VStr "CI"); (SBool true, trigger);
                 (SStr "jobs", VDict [ (SStr "build", job_with_checkout) ]) ]));
    ("{name: CI, on: {push: {branches: [main]}}, jobs: {build: {runs-on: ubuntu-latest, steps: [{run: echo hi}]}}}",
     Ok (VDict [ (SStr "name", VStr "CI"); (SBool true, trigger);
                 (SStr "jobs", VDict [ (SStr "build", job_without_checkout) ]) ]));
    ("{name: CI}", Ok (VDict [ (SStr "name", VStr "CI") ]));
    ("{run: echo hi}", Ok (VDict [ (SStr "run", VStr "echo hi") ]));
    ("{}", Ok (VDict []));
    ("[]", Ok (VList []));
    ("0", Ok (VScalar (SInt 0)));
    ("false", Ok (VScalar (SBool false)));
    ("", Ok VNone);
    ("{name: CI, on: push, jobs: null}", Ok (workflow VNone));
    ("{name: CI, on: push, jobs: {build: null}}",
     Ok (workflow (VDict [ (SStr "build", VNone) ])));
    ("{name: CI, on: push, jobs: {build: {}}}",
     Ok (workflow (VDict [ (SStr "build", VDict []) ])));
    ("{name: CI, on: push, jobs: {build: {name: x}}}",
     Ok (workflow (VDict [ (SStr "build", VDict [ (SStr "name", VStr "x") ]) ])));
    ("{name: CI, on: push, jobs: {build: oops}}",
     Ok (workflow (VDict [ (SStr "build", VStr "oops") ])));
    ("{on: push, jobs: {build: null}}",
     Ok (unnamed_workflow (VDict [ (SStr "build", VNone) ])));
    ("{on: push, jobs: {build: oops}}",
     Ok (unnamed_workflow (VDict [ (SStr "build", VStr "oops") ])));
    ("name: [CI",
     Raise (mk_exn YAMLError
              "while parsing a flow sequence: expected ',' or ']', but got '<stream end>'")) ].

Fixpoint assoc (s : string) (t : list (string * result value)) : option (result value) :=
  match t with
  | [] => None
  | (k, r) :: rest => if String.eqb k s then Some r else assoc s rest
  end.

(** A loader that agrees with [yaml.safe_load] on the texts of the
    table (the parser's position marks are left out of the error
    text); the other texts are not used. *)
Definition sample_load (content : string) : result value :=
  match assoc content table with
  | Some r => r
  | None => Raise (mk_exn YAMLError "text outside the sample table")
  end.

End Samples.

Import Samples.

(* ===================================================================== *)
(** * Vocabulary of the properties *)
(* ===================================================================== *)

(** The top-level keys that count as the trigger section. *)
Definition trigger_key (k : scalar) : bool :=
  match k with
  | SBool true => true
  | SStr s => String.eqb s "on"
  | _ => false
  end.

(** A mapping has a trigger section: some key is ['on'] or [True]. *)
Definition has_trigger_section (d : list (scalar * value)) : Prop :=
  exists k v, In (k, v) d /\ (k = SStr "on" \/ k = SBool true).

(** Two mappings that differ at most in how the trigger key is
    spelled (['on'] on one side, [True] on the other). *)
Definition same_up_to_trigger_spelling (d d' : list (scalar * value)) : Prop :=
  Forall2 (fun kv kv' =>
             snd kv = snd kv' /\
             (fst kv = fst kv' \/
              (trigger_key (fst kv) = true /\ trigger_key (fst kv') = true)))
          d d'.

(** The steps of a job, read off the document: the elements of the
    sequence under its ['steps'] key. *)
Definition job_steps (job : value) : list value :=
  match job with
  | VDict d =>
      match dict_lookup "steps" d with
      | Some (VList l) => l
      | Some (VTuple l) => l
      | _ => []
      end
  | _ => []
  end.

(** A step whose ['uses'] field is a string starting with
    [actions/checkout@]. *)
Definition is_checkout_step (step : value) : bool :=
  match step with
  | VDict d =>
      match dict_lookup "uses" d with
      | Some (VScalar (SStr s)) => String.prefix "actions/checkout@" s
      | _ => false
      end
  | _ => false
  end.

Definition any_checkout (jobs : list (scalar * value)) : bool :=
  existsb (fun kv => existsb is_checkout_step (job_steps (snd kv))) jobs.

(** [p] occurs in [l] as a subsequence: its elements appear in [l] in
    the same order. *)
Fixpoint in_order (p l : list string) : bool :=
  match p, l with
  | [], _ => true
  | _ :: _, [] => false
  | a :: p', b :: l' => if String.eqb a b then in_order p' l' else in_order p l'
  end.

(** The warnings of the per-job checks of one job. *)
Definition job_warnings (job_id : scalar) (job : value) : result (list string) :=
  r <- check_job job_id job fresh_report ;;
  Ok (warnings r).

(** The warnings of the [# Check jobs] loop, job after job. *)
Fixpoint jobs_warnings (items : list (scalar * value)) : result (list string) :=
  match items with
  | [] => Ok []
  | (job_id, job) :: rest =>
      ws <- job_warnings job_id job ;;
      ws' <- jobs_warnings rest ;;
      Ok (ws ++ ws')%list
  end.

(** A mapping has a key equal to the [str] [s]. *)
Definition has_key (s : string) (d : list (scalar * value)) : bool :=
  existsb (fun kv => scalar_eq_str s (fst kv)) d.

Definition on_present (d : list (scalar * value)) : bool :=
  existsb (fun kv => trigger_key (fst kv)) d.

(** The warnings of the checks on the top-level keys ['name'] and
    ['on'] of a mapping. *)
Definition top_warnings (d : list (scalar * value)) : list string :=
  ((if has_key "name" d then [] else ["Missing workflow name"])
   ++ (if on_present d then [] else ["Missing trigger events (on:)"]))%list.

(** ** Readings of the specification that the code does not meet *)

Section Readings.

Variable safe_load : string -> result value.
Variable content : string.

(** [valid] is false exactly through the parse failure, the empty
    document, the missing trigger section or the missing jobs
    section. *)
Definition valid_false_iff_steps_1_2_4_5 : Prop :=
  forall r, validate_workflow safe_load content = Ok r ->
    (valid r = false <->
       (exists e, safe_load content = Raise e /\ exn_class e = YAMLError)
       \/ (exists doc, safe_load content = Ok doc /\ py_truthy doc = false)
       \/ (exists doc, safe_load content = Ok doc /\ has_on doc = Ok false)
       \/ (exists doc, safe_load content = Ok doc /\ py_in "jobs" doc = Ok false)).

(** A non-empty job without [runs-on] gets the runs-on warning and
    not the steps warning. *)
Definition runs_on_warning_excludes_steps_warning : Prop :=
  forall d jobs job_id job r,
    safe_load content = Ok (VDict d) ->
    dict_lookup "jobs" d = Some (VDict jobs) ->
    In (job_id, job) jobs ->
    py_truthy job = true ->
    py_in "runs-on" job = Ok false ->
    validate_workflow safe_load content = Ok r ->
    In ("Missing runs-on in job: " ++ py_str job_id) (warnings r)
    /\ ~ In ("Missing steps in job: " ++ py_str job_id) (warnings r).

(** On every mapping, the trigger section is found exactly when a
    key is ['on'] or [True], and its absence gives [valid = false]
    and the trigger warning. *)
Definition trigger_check_on_every_mapping : Prop :=
  forall d r,
    safe_load content = Ok (VDict d) ->
    validate_workflow safe_load content = Ok r ->
    (has_on (VDict d) = Ok true <-> has_trigger_section d)
    /\ (~ has_trigger_section d ->
        valid r = false /\ In "Missing trigger events (on:)" (warnings r)).

(** On every mapping without name, trigger section and jobs, the
    three warnings come in order. *)
Definition three_warnings_on_every_mapping : Prop :=
  forall d r,
    safe_load content = Ok (VDict d) ->
    py_in "name" (VDict d) = Ok false ->
    ~ has_trigger_section d ->
    py_in "jobs" (VDict d) = Ok false ->
    validate_workflow safe_load content = Ok r ->
    valid r = false
    /\ in_order [ "Missing workflow name"; "Missing trigger events (on:)";
                  "Missing jobs section" ] (warnings r) = true.

(** With a non-empty jobs mapping, the hint is given exactly when no
    step of any job is a checkout step. *)
Definition hint_iff_no_checkout_step : Prop :=
  forall d jobs r,
    safe_load content = Ok (VDict d) ->
    dict_lookup "jobs" d = Some (VDict jobs) ->
    jobs <> [] ->
    validate_workflow safe_load content = Ok r ->
    suggestions r = if any_checkout jobs then [] else [checkout_hint].

End Readings.

(* ===================================================================== *)
(** * The GitHub helpers and the server tools *)
(* ===================================================================== *)

(** The other functions of helpers.py reach GitHub through PyGithub
    and are wrapped, one to one, by the tools of server.py.  What they
    call outside the repository is gathered in [Platform]; the calls
    to [logger] have no effect on what the functions return or raise
    and are left out. *)

(** [ValueError], the class every helper and tool raises. *)
Definition ValueError : exc_class := OtherException "ValueError".

Definition value_error {A : Type} (msg : string) : result A :=
  Raise (mk_exn ValueError msg).

(** [try: body  except Exception as e: raise ValueError(prefix + str(e))],
    the wrapper around the body of every helper and tool. *)
Definition reraise {A : Type} (prefix : string) (body : result A) : result A :=
  try_except body [ (Exception, fun e => value_error (prefix ++ exn_str e)) ].

(** [s.endswith(suffix)] on two [str]. *)
Definition py_endswith (s suffix : string) : bool :=
  Nat.leb (String.length suffix) (String.length s)
  && String.eqb
       (substring (String.length s - String.length suffix)
                  (String.length suffix) s)
       suffix.

(** A paginated list, as the loop that iterates over it sees it: the
    items of the pages fetched so far, then the end, or the exception
    of the request for the next page.  A loop that breaks never
    meets what comes after. *)
Inductive paginated (A : Type) : Type :=
| PEnd
| PItem (a : A) (rest : paginated A)
| PFail (e : exn).

Arguments PEnd {A}.
Arguments PItem {A} a rest.
Arguments PFail {A} e.

(** The pages as a loop that never fails sees them. *)
Fixpoint items {A : Type} (l : paginated A) : list A :=
  match l with
  | PItem a rest => a :: items rest
  | _ => []
  end.

(** The first [n] items, fetched on demand. *)
Fixpoint ptake {A : Type} (n : nat) (l : paginated A) : paginated A :=
  match n, l with
  | O, _ => PEnd
  | S n', PItem a rest => PItem a (ptake n' rest)
  | S _, PEnd => PEnd
  | S _, PFail e => PFail e
  end.

(** [result = []; for x in l: result.append(f(x))]. *)
Fixpoint collect {A : Type} (f : A -> value) (l : paginated A) : result (list value) :=
  match l with
  | PEnd => Ok []
  | PItem a rest => r <- collect f rest ;; Ok (f a :: r)
  | PFail e => Raise e
  end.

(** [github.Github(token)]. *)
Record Github : Type := mk_github { auth_token : string }.

(** A workflow as the API describes it; a date is kept as the text
    [isoformat()] gives for it. *)
Record Workflow : Type := mk_workflow {
  wf_id : Z;
  wf_name : string;
  wf_path : string;
  wf_state : string;
  wf_created_at : option string;
  wf_updated_at : option string;
  wf_html_url : string
}.

Record WorkflowRun : Type := mk_run {
  run_id : Z;
  run_name : option string;
  run_status : option string;
  run_conclusion : option string;
  run_workflow_id : Z;
  run_created_at : option string;
  run_updated_at : option string;
  run_number : Z;
  run_event : string;
  run_html_url : string
}.

(** The file object of [repo.get_contents(path)] for a path that names
    a file: its [sha], and [decoded_content.decode('utf-8')], which
    can raise. *)
Record ContentFile : Type := mk_content_file {
  cf_sha : string;
  cf_text : result string
}.

(** Everything the helpers call outside the repository.  A request
    that reads depends on the state of GitHub ([world]); the two that
    write change it, also when they raise. *)
Record Platform : Type := mk_platform {
  world : Type;
  Repository : Type;
  (** [os.environ.get] *)
  environ : string -> option string;
  (** [yaml.safe_load] *)
  safe_load : string -> result value;
  (** [client.get_repo(repo_name)] *)
  get_repo : Github -> string -> world -> result Repository;
  (** [repo.get_workflows()] *)
  get_workflows : Repository -> world -> paginated Workflow;
  (** [repo.get_workflow(id)] *)
  get_workflow_by_id : Repository -> Z -> world -> result Workflow;
  (** [repo.get_contents(path)] *)
  get_contents : Repository -> string -> world -> result ContentFile;
  (** [workflow.get_runs(status=status)] *)
  get_runs : Workflow -> option string -> world -> result (paginated WorkflowRun);
  (** [repo.get_workflow_runs(status=status)] *)
  get_workflow_runs :
    Repository -> option string -> world -> result (paginated WorkflowRun);
  (** [runs[:limit]] *)
  slice : paginated WorkflowRun -> Z -> paginated WorkflowRun;
  (** [repo.update_file(path=, message=, content=, sha=)] *)
  update_file :
    Repository -> string -> string -> string -> string -> world -> result unit * world;
  (** [repo.create_file(path=, message=, content=)] *)
  create_file :
    Repository -> string -> string -> string -> world -> result unit * world
}.

(** [Union[int, str]], the two ways to name a workflow. *)
Inductive workflow_ref : Type :=
| ById (id : Z)
| ByName (name : string).

(** The reference inside an f-string. *)
Definition ref_str (r : workflow_ref) : string :=
  match r with
  | ById id => py_str (SInt id)
  | ByName name => name
  end.

(** [if workflow_id_or_name:] on an [Optional[Union[int, str]]]. *)
Definition ref_truthy (r : option workflow_ref) : bool :=
  match r with
  | None => false
  | Some (ById id) => negb (Z.eqb id 0)
  | Some (ByName name) => negb (String.eqb name "")
  end.

(** [d.isoformat() if d else None] *)
Definition iso_or_none (d : option string) : value :=
  match d with
  | Some s => VStr s
  | None => VNone
  end.

Definition str_or_none (s : option string) : value :=
  match s with
  | Some s => VStr s
  | None => VNone
  end.

Definition VInt (z : Z) : value := VScalar (SInt z).

(** The dictionary built for a workflow (helpers.py, lines 86-94 and
    145-151). *)
Definition workflow_dict (wf : Workflow) : list (scalar * value) :=
  [ (SStr "id", VInt (wf_id wf));
    (SStr "name", VStr (wf_name wf));
    (SStr "path", VStr (wf_path wf));
    (SStr "state", VStr (wf_state wf));
    (SStr "created_at", iso_or_none (wf_created_at wf));
    (SStr "updated_at", iso_or_none (wf_updated_at wf));
    (SStr "url", VStr (wf_html_url wf)) ].

(** The dictionary built for a run (lines 206-217). *)
Definition run_dict (run : WorkflowRun) : value :=
  VDict [ (SStr "id", VInt (run_id run));
          (SStr "name", str_or_none (run_name run));
          (SStr "status", str_or_none (run_status run));
          (SStr "conclusion", str_or_none (run_conclusion run));
          (SStr "workflow_id", VInt (run_workflow_id run));
          (SStr "created_at", iso_or_none (run_created_at run));
          (SStr "updated_at", iso_or_none (run_updated_at run));
          (SStr "run_number", VInt (run_number run));
          (SStr "event", VStr (run_event run));
          (SStr "url", VStr (run_html_url run)) ].

(** The search loop of [get_workflow] and [list_workflow_runs]
    (lines 125-128 and 189-192): the first workflow whose name is [s]
    or whose path ends with [s]. *)
Definition matches_ref (s : string) (wf : Workflow) : bool :=
  String.eqb (wf_name wf) s || py_endswith (wf_path wf) s.

Fixpoint find_workflow (s : string) (l : paginated Workflow) : result (option Workflow) :=
  match l with
  | PEnd => Ok None
  | PItem wf rest => if matches_ref s wf then Ok (Some wf) else find_workflow s rest
  | PFail e => Raise e
  end.

(** The search loop of [create_or_update_workflow] (lines 270-271):
    the first workflow whose path is [path]. *)
Fixpoint find_by_path (path : string) (l : paginated Workflow) : result (option Workflow) :=
  match l with
  | PEnd => Ok None
  | PItem wf rest =>
      if String.eqb (wf_path wf) path then Ok (Some wf) else find_by_path path rest
  | PFail e => Raise e
  end.

Definition no_token_message : string :=
  "GitHub token not provided. Set GITHUB_TOKEN env var or provide token parameter.".

Section Helpers.

Variable G : Platform.

(** helpers.py, lines 25-45. *)
Definition get_github_client (token : option string) : result Github :=
  let token := match token with
               | None => environ G "GITHUB_TOKEN"
               | Some t => Some t
               end in
  match token with
  | None => value_error no_token_message
  | Some t => if String.eqb t "" then value_error no_token_message
              else Ok (mk_github t)
  end.

(** Lines 48-66. *)
Definition get_repository (repo_name : string) (token : option string) (w : world G)
  : result (Repository G) :=
  reraise ("Error accessing repository " ++ repo_name ++ ": ")
    (client <- get_github_client token ;;
     get_repo G client repo_name w).

(** Lines 69-100. *)
Definition list_workflows (repo_name : string) (token : option string) (w : world G)
  : result value :=
  reraise ("Error listing workflows for " ++ repo_name ++ ": ")
    (repo <- get_repository repo_name token w ;;
     result <- collect (fun wf => VDict (workflow_dict wf)) (get_workflows G repo w) ;;
     Ok (VList result)).

(** The inner [try] of [get_workflow] (lines 137-141): a text that
    does not load gives [None]. *)
Definition parse_or_none (content : string) : result value :=
  try_except (safe_load G content) [ (Exception, fun _ => Ok VNone) ].

(** Lines 103-157. *)
Definition get_workflow (repo_name : string) (workflow_id_or_name : workflow_ref)
  (token : option string) (w : world G) : result value :=
  reraise ("Error getting workflow " ++ ref_str workflow_id_or_name
           ++ " for " ++ repo_name ++ ": ")
    (repo <- get_repository repo_name token w ;;
     workflow <- match workflow_id_or_name with
                 | ById id =>
                     wf <- get_workflow_by_id G repo id w ;; Ok (Some wf)
                 | ByName name => find_workflow name (get_workflows G repo w)
                 end ;;
     match workflow with
     | None => value_error ("Workflow " ++ ref_str workflow_id_or_name ++ " not found")
     | Some workflow =>
         content_file <- get_contents G repo (wf_path workflow) w ;;
         content <- cf_text content_file ;;
         yaml_content <- parse_or_none content ;;
         Ok (VDict (workflow_dict workflow
                      ++ [ (SStr "content", VStr content);
                           (SStr "parsed_yaml", yaml_content) ])%list)
     end).

(** The choice of the workflow in [list_workflow_runs] (lines 182-195). *)
Definition runs_filter (repo : Repository G) (workflow_id_or_name : option workflow_ref)
  (w : world G) : result (option Workflow) :=
  if ref_truthy workflow_id_or_name then
    match workflow_id_or_name with
    | Some (ById id) => wf <- get_workflow_by_id G repo id w ;; Ok (Some wf)
    | Some (ByName name) =>
        workflow <- find_workflow name (get_workflows G repo w) ;;
        match workflow with
        | None => value_error ("Workflow " ++ name ++ " not found")
        | Some wf => Ok (Some wf)
        end
    | None => Ok None
    end
  else Ok None.

(** Lines 160-223. *)
Definition list_workflow_runs (repo_name : string)
  (workflow_id_or_name : option workflow_ref) (status : option string)
  (limit : Z) (token : option string) (w : world G) : result value :=
  reraise ("Error listing workflow runs for " ++ repo_name ++ ": ")
    (repo <- get_repository repo_name token w ;;
     workflow <- runs_filter repo workflow_id_or_name w ;;
     runs <- match workflow with
             | Some wf => get_runs G wf status w
             | None => get_workflow_runs G repo status w
             end ;;
     result <- collect run_dict (slice G runs limit) ;;
     Ok (VList result)).

(** The inner [try] of [create_or_update_workflow] (lines 254-266):
    the file that was found, if any, and the outcome of the last
    write.  When [update_file] raises, [create_file] is tried, and
    [file] stays set. *)
Definition write_file (repo : Repository G) (workflow_path content commit_message : string)
  (w : world G) : option ContentFile * (result unit * world G) :=
  match get_contents G repo workflow_path w with
  | Ok file =>
      match update_file G repo workflow_path commit_message content (cf_sha file) w with
      | (Ok u, w') => (Some file, (Ok u, w'))
      | (Raise _, w') =>
          (Some file, create_file G repo workflow_path commit_message content w')
      end
  | Raise _ => (None, create_file G repo workflow_path commit_message content w)
  end.

(** ["updated" if file else "created"] *)
Definition verb (file : option ContentFile) : string :=
  match file with
  | Some _ => "updated"
  | None => "created"
  end.

(** The two dictionaries of lines 272-285. *)
Definition written_dict (workflow_path : string) (file : option ContentFile)
  (found : option Workflow) : value :=
  match found with
  | Some workflow =>
      VDict [ (SStr "id", VInt (wf_id workflow));
              (SStr "name", VStr (wf_name workflow));
              (SStr "path", VStr (wf_path workflow));
              (SStr "state", VStr (wf_state workflow));
              (SStr "url", VStr (wf_html_url workflow));
              (SStr "message",
               VStr ("Successfully " ++ verb file ++ " workflow file")) ]
  | None =>
      VDict [ (SStr "path", VStr workflow_path);
              (SStr "message",
               VStr ("Workflow file " ++ verb file
                     ++ ", but not yet available as a workflow")) ]
  end.

(** The body of the outer [try] of [create_or_update_workflow]. *)
Definition create_or_update_body (repo_name workflow_path content commit_message : string)
  (token : option string) (w : world G) : result value * world G :=
  match reraise "Invalid YAML content: " (safe_load G content) with
  | Raise e => (Raise e, w)
  | Ok _ =>
      match get_repository repo_name token w with
      | Raise e => (Raise e, w)
      | Ok repo =>
          match write_file repo workflow_path content commit_message w with
          | (_, (Raise e, w')) => (Raise e, w')
          | (file, (Ok _, w')) =>
              (found <- find_by_path workflow_path (get_workflows G repo w') ;;
               Ok (written_dict workflow_path file found), w')
          end
      end
  end.

(** Lines 226-290: what is returned or raised, and the state of GitHub
    afterwards. *)
Definition create_or_update_workflow (repo_name workflow_path content commit_message : string)
  (token : option string) (w : world G) : result value * world G :=
  let (r, w') := create_or_update_body repo_name workflow_path content
                   commit_message token w in
  (reraise ("Error creating/updating workflow " ++ workflow_path
            ++ " for " ++ repo_name ++ ": ") r, w').

(** ** server.py *)

(** server.py, lines 57-100. *)
Definition list_workflows_tool (repo_name : string) (token : option string) (w : world G)
  : result value :=
  reraise "Error listing workflows: "
    (workflows <- list_workflows repo_name token w ;;
     Ok (VDict [ (SStr "workflows", workflows) ])).

(** Lines 104-150. *)
Definition get_workflow_tool (repo_name : string) (workflow_id_or_name : workflow_ref)
  (token : option string) (w : world G) : result value :=
  reraise "Error getting workflow: "
    (get_workflow repo_name workflow_id_or_name token w).

(** Lines 154-212. *)
Definition list_workflow_runs_tool (repo_name : string)
  (workflow_id_or_name : option workflow_ref) (status : option string)
  (limit : Z) (token : option string) (w : world G) : result value :=
  reraise "Error listing workflow runs: "
    (runs <- list_workflow_runs repo_name workflow_id_or_name status limit token w ;;
     Ok (VDict [ (SStr "runs", runs) ])).

(** Lines 216-282. *)
Definition create_or_update_workflow_tool
  (repo_name workflow_path content commit_message : string)
  (token : option string) (w : world G) : result value * world G :=
  let (r, w') := create_or_update_workflow repo_name workflow_path content
                   commit_message token w in
  (reraise "Error creating/updating workflow: " r, w').

(** Lines 375-423. *)
Definition validate_workflow_tool (content : string) : result report :=
  reraise "Error validating workflow: " (validate_workflow (safe_load G) content).

End Helpers.

(** ** Vocabulary of the helper properties *)

(** Pages that start with the items of [l] and go on as [rest]. *)
Fixpoint prepend {A : Type} (l : list A) (rest : paginated A) : paginated A :=
  match l with
  | [] => rest
  | a :: l' => PItem a (prepend l' rest)
  end.

(** The same platform with another YAML loader. *)
Definition with_loader (G : Platform) (load : string -> result value) : Platform :=
  mk_platform (environ G) load (get_repo G) (get_workflows G)
    (get_workflow_by_id G) (get_contents G) (get_runs G) (get_workflow_runs G)
    (slice G) (update_file G) (create_file G).

(** ** A small platform for concrete runs *)

(** One repository, [octocat/Hello-World], with two workflows; a
    second one, [octocat/flaky], whose workflow list fails after its
    first page.  The state of GitHub is the list of the files with
    their contents. *)
Module Demo.

Definition ci : Workflow :=
  mk_workflow 1 "CI" ".github/workflows/ci.yml" "active"
    (Some "2025-01-01T00:00:00+00:00") (Some "2025-01-02T00:00:00+00:00")
    "https://github.com/octocat/Hello-World/actions/workflows/ci.yml".

Definition deploy : Workflow :=
  mk_workflow 2 "Deploy" ".github/workflows/deploy.yml" "active"
    (Some "2025-02-01T00:00:00+00:00") None
    "https://github.com/octocat/Hello-World/actions/workflows/deploy.yml".

Definition run (n : Z) : WorkflowRun :=
  mk_run (100 + n) (Some "CI") (Some "completed") (Some "success") 1
    (Some "2025-03-01T00:00:00+00:00") (Some "2025-03-01T00:05:00+00:00")
    n "push" "https://github.com/octocat/Hello-World/actions/runs".

Definition not_found : exn :=
  mk_exn (OtherException "UnknownObjectException") "404 Not Found".

Definition bad_gateway : exn :=
  mk_exn (OtherException "GithubException") "502 Bad Gateway".

Definition unprocessable : exn :=
  mk_exn (OtherException "GithubException") "422 Unprocessable Entity".

Definition missing_sha : exn :=
  mk_exn (OtherException "GithubException") "422 sha was not supplied".

Definition files : Type := list (string * string).

Fixpoint file_content (path : string) (w : files) : option string :=
  match w with
  | [] => None
  | (p, c) :: rest => if String.eqb p path then Some c else file_content path rest
  end.

Fixpoint replace_file (path content : string) (w : files) : files :=
  match w with
  | [] => []
  | (p, c) :: rest =>
      if String.eqb p path then (p, content) :: rest
      else (p, c) :: replace_file path content rest
  end.

Definition demo_get_repo (_ : Github) (repo_name : string) (_ : files)
  : result string :=
  if String.eqb repo_name "octocat/Hello-World" || String.eqb repo_name "octocat/flaky"
  then Ok repo_name else Raise not_found.

Definition demo_get_workflows (repo : string) (_ : files) : paginated Workflow :=
  if String.eqb repo "octocat/flaky" then PItem ci (PFail bad_gateway)
  else PItem ci (PItem deploy PEnd).

Definition demo_get_workflow_by_id (_ : string) (id : Z) (_ : files)
  : result Workflow :=
  if Z.eqb id 1 then Ok ci else if Z.eqb id 2 then Ok deploy else Raise not_found.

Definition demo_get_contents (_ : string) (path : string) (w : files)
  : result ContentFile :=
  match file_content path w with
  | Some c => Ok (mk_content_file ("sha-of-" ++ path) (Ok c))
  | None => Raise not_found
  end.

Definition demo_get_runs (_ : Workflow) (_ : option string) (_ : files)
  : result (paginated WorkflowRun) :=
  Ok (PItem (run 3) (PItem (run 2) (PItem (run 1) (PFail bad_gateway)))).

Definition demo_get_workflow_runs (_ : string) (_ : option string) (_ : files)
  : result (paginated WorkflowRun) :=
  Ok (PItem (run 4) (PItem (run 3) (PItem (run 2) (PItem (run 1) PEnd)))).

(** An update or a creation without a commit message is refused, and
    so is the creation of a file that exists. *)
Definition demo_update_file (_ : string) (path message content sha : string)
  (w : files) : result unit * files :=
  if String.eqb message "" then (Raise unprocessable, w)
  else (Ok tt, replace_file path content w).

Definition demo_create_file (_ : string) (path message content : string)
  (w : files) : result unit * files :=
  match file_content path w with
  | Some _ => (Raise missing_sha, w)
  | None =>
      if String.eqb message "" then (Raise unprocessable, w)
      else (Ok tt, (w ++ [(path, content)])%list)
  end.

Definition with_token_env (key : string) : option string :=
  if String.eqb key "GITHUB_TOKEN" then Some "env-token" else None.

Definition no_env (_ : string) : option string := None.

Definition platform (env : string -> option string) : Platform :=
  mk_platform env sample_load demo_get_repo demo_get_workflows
    demo_get_workflow_by_id demo_get_contents demo_get_runs
    demo_get_workflow_runs (fun l n => ptake (Z.to_nat n) l)
    demo_update_file demo_create_file.

Definition hub : Platform := platform with_token_env.

Definition initial : files :=
  [ (".github/workflows/ci.yml", "{name: CI}");
    (".github/workflows/deploy.yml", "name: [CI") ].

End Demo.

(* ===================================================================== *)
(** * Properties *)
(* ===================================================================== *)

(** ** The exception machinery *)

Lemma issubclass_Exception (c : exc_class) : issubclass c Exception = true.
Proof. reflexivity. Qed.

Lemma bind_Ok {A B : Type} (m : result A) (k : A -> result B) (b : B) :
  bind m k = Ok b -> exists a, m = Ok a /\ k a = Ok b.
Proof.
  destruct m as [a|e]; simpl; intros H.
  - exists a; split; [reflexivity | exact H].
  - discriminate H.
Qed.

Lemma bind_Raise {A B : Type} (m : result A) (k : A -> result B) (e : exn) :
  bind m k = Raise e ->
  m = Raise e \/ exists a, m = Ok a /\ k a = Raise e.
Proof.
  destruct m as [a|e']; simpl; intros H.
  - right; exists a; split; [reflexivity | exact H].
  - left; injection H as ->; reflexivity.
Qed.

(** Both handlers return, and one of them always applies. *)
Lemma validate_workflow_cases (safe_load : string -> result value) (content : string) :
  match validate_body safe_load content with
  | Ok r => validate_workflow safe_load content = Ok r
  | Raise e =>
      validate_workflow safe_load content =
      Ok (if exc_class_eqb (exn_class e) YAMLError
          then invalid_yaml e else validation_error e)
  end.
Proof.
  unfold validate_workflow.
  destruct (validate_body safe_load content) as [r|e]; simpl; [reflexivity|].
  destruct (exn_class e); reflexivity.
Qed.

(** The shape of a report built by a handler. *)
Lemma handler_report_shape (e : exn) :
  let r := if exc_class_eqb (exn_class e) YAMLError
           then invalid_yaml e else validation_error e in
  valid r = false /\ length (warnings r) = 1%nat /\ suggestions r = [].
Proof. destruct (exc_class_eqb (exn_class e) YAMLError); simpl; auto. Qed.

(** ** Strings *)

Lemma prefix_app (p s : string) : String.prefix p (p ++ s) = true.
Proof.
  induction p as [|a p IH]; simpl; [destruct s; reflexivity|].
  destruct (ascii_dec a a) as [_|Hne]; [exact IH | now elim Hne].
Qed.

Lemma str_contains_prefix (p s : string) : str_contains p (p ++ s) = true.
Proof.
  assert (U : forall h, String.prefix p h = true -> str_contains p h = true).
  { intros h Hp; destruct h; cbn [str_contains]; rewrite Hp; reflexivity. }
  apply U, prefix_app.
Qed.

(** ** Reports *)

Lemma report_eta (r : report) : mk_report (valid r) (warnings r) (suggestions r) = r.
Proof. destruct r; reflexivity. Qed.

(** The report [vr] with the warnings [ws] appended. *)
Lemma check_job_frame (job_id : scalar) (job : value) (vr : report) :
  check_job job_id job vr =
  (ws <- job_warnings job_id job ;;
   Ok (mk_report (valid vr) (warnings vr ++ ws)%list (suggestions vr))).
Proof.
  unfold job_warnings, check_job.
  destruct (py_truthy job); simpl; [|reflexivity].
  destruct (py_in "runs-on" job) as [[|]|e]; simpl; [| |reflexivity];
    (destruct (py_in "steps" job) as [[|]|e]; simpl; [| |reflexivity]);
    unfold add_warning; simpl;
    rewrite ?app_nil_r, <- ?app_assoc, ?report_eta; reflexivity.
Qed.

Lemma check_jobs_frame (items : list (scalar * value)) (vr : report) :
  check_jobs items vr =
  (ws <- jobs_warnings items ;;
   Ok (mk_report (valid vr) (warnings vr ++ ws)%list (suggestions vr))).
Proof.
  revert vr; induction items as [|[job_id job] rest IH]; intros vr; simpl.
  - rewrite app_nil_r, report_eta; reflexivity.
  - rewrite check_job_frame.
    destruct (job_warnings job_id job) as [ws|e]; simpl; [|reflexivity].
    rewrite IH. destruct (jobs_warnings rest) as [ws'|e]; simpl; [|reflexivity].
    rewrite app_assoc; reflexivity.
Qed.

Lemma jobs_warnings_app (a b : list (scalar * value)) :
  jobs_warnings (a ++ b) =
  (wa <- jobs_warnings a ;; wb <- jobs_warnings b ;; Ok (wa ++ wb)%list).
Proof.
  induction a as [|[job_id job] a IH]; simpl.
  - destruct (jobs_warnings b); reflexivity.
  - destruct (job_warnings job_id job) as [ws|e]; simpl; [|reflexivity].
    rewrite IH. destruct (jobs_warnings a) as [wa|e]; simpl; [|reflexivity].
    destruct (jobs_warnings b) as [wb|e]; simpl; [|reflexivity].
    rewrite app_assoc; reflexivity.
Qed.

(** ** Mappings *)

Lemma dict_lookup_has_key (s : string) (d : list (scalar * value)) :
  has_key s d = match dict_lookup s d with Some _ => true | None => false end.
Proof.
  induction d as [|[k v] d IH]; simpl; [reflexivity|].
  destruct (scalar_eq_str s k); simpl; [reflexivity | exact IH].
Qed.

Lemma trigger_key_is_trigger_key (k : scalar) :
  is_trigger_key (VScalar k) = trigger_key k.
Proof. destruct k as [|[|]| | |]; reflexivity. Qed.

Lemma has_on_dict (d : list (scalar * value)) :
  has_on (VDict d) = Ok (on_present d).
Proof.
  unfold has_on, on_present; simpl. f_equal.
  induction d as [|[k v] d IH]; cbn [map existsb fst]; [reflexivity|].
  rewrite trigger_key_is_trigger_key, IH; reflexivity.
Qed.

Lemma trigger_key_spec (k : scalar) :
  trigger_key k = true <-> k = SStr "on" \/ k = SBool true.
Proof.
  split.
  - destruct k as [|[|]|z|s|n t x]; simpl; try discriminate; auto.
    intros H; apply String.eqb_eq in H; subst; auto.
  - intros [->| ->]; reflexivity.
Qed.

Lemma on_present_spec (d : list (scalar * value)) :
  on_present d = true <-> has_trigger_section d.
Proof.
  unfold on_present, has_trigger_section. rewrite existsb_exists. split.
  - intros [[k v] [Hin Hk]]. exists k, v. split; [exact Hin|].
    apply trigger_key_spec; exact Hk.
  - intros [k [v [Hin Hk]]]. exists (k, v). split; [exact Hin|].
    apply trigger_key_spec; exact Hk.
Qed.

(** ** The checks on a mapping, stage by stage *)

(** The report after the checks on ['name'] and ['on']. *)
Lemma top_checks_dict (d : list (scalar * value)) :
  (vr1 <- check_name (VDict d) fresh_report ;; check_on (VDict d) vr1)
  = Ok (mk_report (on_present d) (top_warnings d) []).
Proof.
  unfold check_name, check_on, top_warnings. rewrite has_on_dict. simpl.
  fold (has_key "name" d).
  destruct (has_key "name" d), (on_present d); reflexivity.
Qed.

Lemma validate_document_dict (d : list (scalar * value)) :
  d <> [] ->
  validate_document (VDict d) =
  check_jobs_section (VDict d) (mk_report (on_present d) (top_warnings d) []).
Proof.
  intros Hd. unfold validate_document.
  destruct d as [|kv d]; [now elim Hd|].
  cbn [py_truthy nonempty negb].
  pose proof (top_checks_dict (kv :: d)) as H.
  destruct (check_name (VDict (kv :: d)) fresh_report) as [vr1|e]; simpl in H;
    [|discriminate H].
  cbn [bind]. rewrite H. reflexivity.
Qed.

Lemma validate_document_no_jobs (d : list (scalar * value)) :
  d <> [] ->
  has_key "jobs" d = false ->
  validate_document (VDict d) =
  Ok (mk_report false (top_warnings d ++ ["Missing jobs section"])%list []).
Proof.
  intros Hd Hj. rewrite (validate_document_dict Hd).
  unfold check_jobs_section. cbn [py_in bind]. fold (has_key "jobs" d).
  rewrite Hj. reflexivity.
Qed.

Lemma dict_lookup_nonempty (s : string) (d : list (scalar * value)) (v : value) :
  dict_lookup s d = Some v -> d <> [].
Proof. destruct d; [discriminate | discriminate]. Qed.

(** With a jobs mapping: the per-job warnings, then the scan. *)
Lemma validate_document_jobs (d jobs : list (scalar * value)) :
  dict_lookup "jobs" d = Some (VDict jobs) ->
  validate_document (VDict d) =
  (ws <- jobs_warnings jobs ;;
   if nonempty jobs then
     has_checkout <- scan_jobs jobs ;;
     Ok (mk_report (on_present d) (top_warnings d ++ ws)%list
           (if has_checkout then [] else [checkout_hint]))
   else Ok (mk_report (on_present d) (top_warnings d ++ ws)%list [])).
Proof.
  intros Hj. rewrite (validate_document_dict (@dict_lookup_nonempty _ _ _ Hj)).
  unfold check_jobs_section. cbn [py_in bind]. fold (has_key "jobs" d).
  rewrite dict_lookup_has_key, Hj. cbn [negb py_get bind]. rewrite Hj.
  cbn [py_items bind]. rewrite check_jobs_frame.
  destruct (jobs_warnings jobs) as [ws|e]; cbn [bind]; [|reflexivity].
  unfold check_best_practices. cbn [py_get bind]. rewrite Hj.
  cbn [py_truthy]. destruct (nonempty jobs); [|reflexivity].
  cbn [py_getitem]. rewrite Hj. cbn [py_items bind].
  destruct (scan_jobs jobs) as [[|]|e]; reflexivity.
Qed.

(** ** The checkout scan against the document *)

Lemma no_checkout_among_scalars (l : list scalar) :
  existsb is_checkout_step (map VScalar l) = false.
Proof. induction l as [|k l IH]; simpl; [reflexivity | exact IH]. Qed.

Lemma no_checkout_among_keys (d : list (scalar * value)) :
  existsb is_checkout_step (map (fun kv => VScalar (fst kv)) d) = false.
Proof. induction d as [|k l IH]; simpl; [reflexivity | exact IH]. Qed.

Lemma no_checkout_among_chars (s : string) :
  existsb is_checkout_step (chars s) = false.
Proof.
  unfold chars. induction (list_ascii_of_string s) as [|a l IH]; simpl;
    [reflexivity | exact IH].
Qed.

Lemma scan_steps_sound (steps : list value) (b : bool) :
  scan_steps steps = Ok b -> b = existsb is_checkout_step steps.
Proof.
  induction steps as [|step rest IH]; simpl; intros H.
  - injection H as <-; reflexivity.
  - destruct step as [k|l|l|sd|l]; try discriminate H.
    cbn [py_get bind] in H. cbn [is_checkout_step].
    destruct (dict_lookup "uses" sd) as [[[| | |s|]| | | |]|];
      try discriminate H; cbn [py_startswith bind] in H.
    + destruct (String.prefix "actions/checkout@" s); cbn [orb].
      * injection H as <-; reflexivity.
      * apply IH, H.
    + cbn [String.prefix orb] in *. apply IH, H.
Qed.

Lemma scan_jobs_sound (jobs : list (scalar * value)) (b : bool) :
  scan_jobs jobs = Ok b -> b = any_checkout jobs.
Proof.
  unfold any_checkout.
  induction jobs as [|[job_id job] rest IH]; cbn [scan_jobs existsb snd]; intros H.
  - injection H as <-; reflexivity.
  - apply bind_Ok in H as [steps_obj [Hget H]].
    apply bind_Ok in H as [steps [Hiter H]].
    apply bind_Ok in H as [hc [Hscan H]].
    apply scan_steps_sound in Hscan.
    assert (E : existsb is_checkout_step steps
                = existsb is_checkout_step (job_steps job)).
    { destruct job as [k|l|l|jd|l]; try discriminate Hget.
      cbn [py_get] in Hget. cbn [job_steps].
      destruct (dict_lookup "steps" jd) as [v|];
        injection Hget as <-.
      - destruct v as [[| | |s|]|l|l|sd|l]; try discriminate Hiter;
          injection Hiter as <-;
          auto using no_checkout_among_scalars, no_checkout_among_keys,
                     no_checkout_among_chars.
      - injection Hiter as <-; reflexivity. }
    rewrite <- E, <- Hscan.
    destruct hc; cbn [orb].
    + injection H as <-; reflexivity.
    + apply IH, H.
Qed.

(* ===================================================================== *)
(** * The claims *)
(* ===================================================================== *)

(** C1.  For every input text and whatever the loader does with it,
    [validate_workflow] returns a report and propagates nothing: when
    the body of the [try] raised (in the loader or in one of the
    checks), the returned report is the one a handler built, invalid,
    with one warning and no suggestion; when it did not, the returned
    report is the one the checks built. *)
Theorem validate_workflow_always_returns
  (safe_load : string -> result value) (content : string) :
  exists r,
    validate_workflow safe_load content = Ok r
    /\ (forall e, validate_body safe_load content = Raise e ->
        valid r = false /\ length (warnings r) = 1%nat /\ suggestions r = []
        /\ (r = invalid_yaml e \/ r = validation_error e))
    /\ (forall r', validate_body safe_load content = Ok r' -> r = r').
Proof.
  pose proof (validate_workflow_cases safe_load content) as H.
  destruct (validate_body safe_load content) as [r|e].
  - exists r. split; [exact H|]. split.
    + intros e He; discriminate He.
    + intros r' Hr; injection Hr as <-; reflexivity.
  - eexists. split; [exact H|]. split.
    + intros e' He; injection He as <-.
      destruct (handler_report_shape e) as [Hv [Hw Hs]].
      repeat (split; [assumption|]).
      destruct (exc_class_eqb (exn_class e) YAMLError); auto.
    + intros r' Hr; discriminate Hr.
Qed.

(** C6.  When the loader raises a YAML error on the text, the report
    is invalid, has exactly one warning, ["Invalid YAML: "] followed
    by the error text (so the warning contains ["Invalid YAML"]), has
    no suggestion, and no check ran: the body raised in the loader. *)
Theorem yaml_error_gives_invalid_yaml_report
  (safe_load : string -> result value) (content : string) (e : exn)
  (Hparse : safe_load content = Raise e)
  (Hclass : exn_class e = YAMLError) :
  exists w,
    validate_workflow safe_load content = Ok (mk_report false [w] [])
    /\ w = "Invalid YAML: " ++ exn_str e
    /\ str_contains "Invalid YAML" w = true
    /\ validate_body safe_load content = Raise e.
Proof.
  exists ("Invalid YAML: " ++ exn_str e).
  assert (Hbody : validate_body safe_load content = Raise e).
  { unfold validate_body; rewrite Hparse; reflexivity. }
  split; [|split; [reflexivity | split]].
  - unfold validate_workflow. rewrite Hbody. simpl. rewrite Hclass. reflexivity.
  - change ("Invalid YAML: " ++ exn_str e)
      with ("Invalid YAML" ++ (": " ++ exn_str e)).
    apply str_contains_prefix.
  - exact Hbody.
Qed.

Lemma yaml_error_gives_invalid_yaml_report_witness :
  exists w,
    validate_workflow sample_load "name: [CI" = Ok (mk_report false [w] [])
    /\ w = "Invalid YAML: while parsing a flow sequence: expected ',' or ']', but got '<stream end>'"
    /\ str_contains "Invalid YAML" w = true
    /\ validate_body sample_load "name: [CI"
       = Raise (mk_exn YAMLError
                  "while parsing a flow sequence: expected ',' or ']', but got '<stream end>'").
Proof.
  apply (@yaml_error_gives_invalid_yaml_report sample_load "name: [CI"
           (mk_exn YAMLError
              "while parsing a flow sequence: expected ',' or ']', but got '<stream end>'"));
    reflexivity.
Defined.

(** The falsy objects a document can be, besides [None]. *)
Lemma falsy_documents :
  Forall (fun doc => py_truthy doc = false)
    [ VScalar (SBool false); VScalar (SInt 0); VDict []; VList []; VNone;
      VStr ""; VSet []; VScalar (SOther "float" false "0.0") ].
Proof. repeat constructor. Qed.

(** C10.  Emptiness is truthiness: whenever the parsed document is
    falsy ([False], [0], an empty mapping, an empty sequence, ...)
    the report is invalid with the single warning
    ["Empty workflow file"] and no suggestion, which is what the
    checks answer on [None]. *)
Theorem falsy_document_is_empty_workflow
  (safe_load : string -> result value) (content : string) (doc : value)
  (Hparse : safe_load content = Ok doc)
  (Hfalsy : py_truthy doc = false) :
  validate_workflow safe_load content
  = Ok (mk_report false ["Empty workflow file"] [])
  /\ validate_document doc = validate_document VNone.
Proof.
  assert (Hdoc : validate_document doc
                 = Ok (mk_report false ["Empty workflow file"] [])).
  { unfold validate_document. rewrite Hfalsy. reflexivity. }
  split.
  - unfold validate_workflow, validate_body. rewrite Hparse. cbn [bind].
    rewrite Hdoc. reflexivity.
  - rewrite Hdoc. reflexivity.
Qed.

Lemma falsy_document_is_empty_workflow_witness :
  validate_workflow sample_load "0"
  = Ok (mk_report false ["Empty workflow file"] [])
  /\ validate_document (VScalar (SInt 0)) = validate_document VNone.
Proof.
  apply (@falsy_document_is_empty_workflow sample_load "0" (VScalar (SInt 0)));
    reflexivity.
Defined.

(** ** The [valid] flag *)

Lemma check_best_practices_keeps (doc : value) (vr r : report) :
  check_best_practices doc vr = Ok r ->
  valid r = valid vr /\ warnings r = warnings vr.
Proof.
  unfold check_best_practices. intros H.
  apply bind_Ok in H as [jobs [_ H]].
  destruct (py_truthy jobs).
  - apply bind_Ok in H as [jobs' [_ H]].
    apply bind_Ok in H as [items [_ H]].
    apply bind_Ok in H as [[|] [_ H]]; injection H as <-; split; reflexivity.
  - injection H as <-; split; reflexivity.
Qed.

Lemma check_jobs_keeps_valid (items : list (scalar * value)) (vr r : report) :
  check_jobs items vr = Ok r -> valid r = valid vr.
Proof.
  rewrite check_jobs_frame. intros H.
  apply bind_Ok in H as [ws [_ H]]. injection H as <-. reflexivity.
Qed.

(** On a truthy document the checks, when they all complete, leave
    [valid] true exactly when the trigger loop found a key and
    ['jobs'] is in the document. *)
Lemma validate_document_valid (doc : value) (r : report) :
  py_truthy doc = true ->
  validate_document doc = Ok r ->
  exists on jobs,
    has_on doc = Ok on /\ py_in "jobs" doc = Ok jobs /\ valid r = on && jobs.
Proof.
  unfold validate_document. intros -> H. cbn [negb] in H.
  apply bind_Ok in H as [vr1 [H1 H]].
  apply bind_Ok in H as [vr2 [H2 H]].
  unfold check_name in H1. apply bind_Ok in H1 as [has_name [_ H1]].
  assert (V1 : valid vr1 = true).
  { destruct has_name; injection H1 as <-; reflexivity. }
  unfold check_on in H2. apply bind_Ok in H2 as [on [Hon H2]].
  assert (V2 : valid vr2 = on).
  { destruct on; injection H2 as <-; [exact V1 | reflexivity]. }
  unfold check_jobs_section in H. apply bind_Ok in H as [jobs [Hjobs H]].
  exists on, jobs. split; [exact Hon|]. split; [exact Hjobs|].
  destruct jobs; cbn [negb] in H.
  - apply bind_Ok in H as [j [_ H]].
    apply bind_Ok in H as [items [_ H]].
    apply bind_Ok in H as [vr' [Hc H]].
    apply check_best_practices_keeps in H as [-> _].
    apply check_jobs_keeps_valid in Hc. rewrite Hc, V2, andb_true_r. reflexivity.
  - injection H as <-. rewrite andb_false_r. reflexivity.
Qed.

(** C2, as the specification words it, fails on a workflow whose
    ['jobs'] key holds [None]: the text parses, the document is not
    empty, it has a trigger key and a ['jobs'] key, and the report is
    invalid all the same, through the generic handler. *)
Lemma valid_false_without_steps_1_2_4_5 :
  ~ valid_false_iff_steps_1_2_4_5 sample_load "{name: CI, on: push, jobs: null}".
Proof.
  intros H.
  destruct (H (mk_report false
                 ["Validation error: 'NoneType' object has no attribute 'items'"] [])
              eq_refl) as [H1 _].
  destruct (H1 eq_refl) as [[e [He _]] | [[doc [Hd Hp]] | [[doc [Hd Hp]] | [doc [Hd Hp]]]]].
  - discriminate He.
  - injection Hd as <-. discriminate Hp.
  - injection Hd as <-. discriminate Hp.
  - injection Hd as <-. discriminate Hp.
Qed.

(** C2, amended.  The returned [valid] is false exactly when the
    loader raised, or the document is falsy, or the trigger loop found
    no key, or ['jobs'] is not in the document, or one of the checks
    raised (the generic handler then answers).  In particular, on a
    truthy document with a trigger key and ['jobs'] on which the checks
    complete, [valid] is true whatever the warnings and suggestions
    are. *)
Theorem valid_false_iff_failure_or_missing_section
  (safe_load : string -> result value) (content : string) (r : report)
  (Hret : validate_workflow safe_load content = Ok r) :
  (valid r = false <->
     (exists e, safe_load content = Raise e)
     \/ (exists doc, safe_load content = Ok doc /\
           (py_truthy doc = false
            \/ has_on doc = Ok false
            \/ py_in "jobs" doc = Ok false
            \/ exists e, validate_document doc = Raise e)))
  /\ (forall doc,
        safe_load content = Ok doc -> py_truthy doc = true ->
        has_on doc = Ok true -> py_in "jobs" doc = Ok true ->
        validate_document doc = Ok r -> valid r = true).
Proof.
  pose proof (validate_workflow_cases safe_load content) as Hc.
  unfold validate_body in Hc.
  assert (Hraise : forall e : exn,
             valid (if exc_class_eqb (exn_class e) YAMLError
                    then invalid_yaml e else validation_error e) = false).
  { intros e; destruct (exc_class_eqb (exn_class e) YAMLError); reflexivity. }
  split.
  - destruct (safe_load content) as [doc|e] eqn:Hload; cbn [bind] in Hc.
    + destruct (validate_document doc) as [r'|e] eqn:Hdoc.
      * rewrite Hc in Hret; injection Hret as <-.
        destruct (py_truthy doc) eqn:Ht.
        -- destruct (validate_document_valid doc Ht Hdoc)
             as [on [jobs [Hon [Hjobs Hv]]]].
           rewrite Hv. split.
           ++ intros Hf. right. exists doc. split; [reflexivity|].
              apply andb_false_iff in Hf as [-> | ->]; auto.
           ++ intros [[e He] | [doc' [Hd' Hcase]]]; [discriminate He|].
              injection Hd' as <-.
              destruct Hcase as [Hf | [Hf | [Hf | [e He]]]].
              ** rewrite Hf in Ht; discriminate Ht.
              ** rewrite Hon in Hf; injection Hf as ->; reflexivity.
              ** rewrite Hjobs in Hf; injection Hf as ->. apply andb_false_r.
              ** rewrite Hdoc in He; discriminate He.
        -- unfold validate_document in Hdoc. rewrite Ht in Hdoc.
           injection Hdoc as <-. split; [|reflexivity].
           intros _. right. exists doc. auto.
      * rewrite Hc in Hret; injection Hret as <-. rewrite Hraise.
        split; [|reflexivity].
        intros _. right. exists doc. split; [reflexivity|]. eauto 6.
    + rewrite Hc in Hret; injection Hret as <-. rewrite Hraise.
      split; [|reflexivity]. intros _. left. exists e. reflexivity.
  - intros doc Hload Ht Hon Hjobs Hdoc.
    destruct (validate_document_valid doc Ht Hdoc) as [on [jobs [Hon' [Hjobs' Hv]]]].
    rewrite Hon in Hon'; injection Hon' as <-.
    rewrite Hjobs in Hjobs'; injection Hjobs' as <-.
    exact Hv.
Qed.

Lemma valid_false_iff_failure_or_missing_section_witness :
  let content := "{name: CI, on: push, jobs: null}" in
  let r := mk_report false
             ["Validation error: 'NoneType' object has no attribute 'items'"] [] in
  (valid r = false <->
     (exists e, sample_load content = Raise e)
     \/ (exists doc, sample_load content = Ok doc /\
           (py_truthy doc = false
            \/ has_on doc = Ok false
            \/ py_in "jobs" doc = Ok false
            \/ exists e, validate_document doc = Raise e)))
  /\ (forall doc,
        sample_load content = Ok doc -> py_truthy doc = true ->
        has_on doc = Ok true -> py_in "jobs" doc = Ok true ->
        validate_document doc = Ok r -> valid r = true).
Proof.
  intros content r.
  apply (@valid_false_iff_failure_or_missing_section sample_load content r).
  reflexivity.
Defined.

(** ** The per-job checks *)

Lemma validate_document_jobs_warnings (d jobs : list (scalar * value)) (r : report) :
  dict_lookup "jobs" d = Some (VDict jobs) ->
  validate_document (VDict d) = Ok r ->
  exists ws,
    jobs_warnings jobs = Ok ws
    /\ warnings r = (top_warnings d ++ ws)%list
    /\ valid r = on_present d.
Proof.
  intros Hj H. rewrite (validate_document_jobs _ Hj) in H.
  apply bind_Ok in H as [ws [Hws H]]. exists ws. split; [exact Hws|].
  destruct (nonempty jobs).
  - apply bind_Ok in H as [hc [_ H]]. injection H as <-. split; reflexivity.
  - injection H as <-. split; reflexivity.
Qed.

Lemma job_warnings_without_runs_on (job_id : scalar) (job : value) :
  py_truthy job = true ->
  py_in "runs-on" job = Ok false ->
  job_warnings job_id job =
  (has_steps <- py_in "steps" job ;;
   Ok (("Missing runs-on in job: " ++ py_str job_id)
         :: (if has_steps then []
             else ["Missing steps in job: " ++ py_str job_id]))).
Proof.
  intros Ht Hr. unfold job_warnings, check_job. rewrite Ht, Hr. cbn [negb bind].
  destruct (py_in "steps" job) as [[|]|e]; reflexivity.
Qed.

Lemma job_warnings_falsy (job_id : scalar) (job : value) :
  py_truthy job = false ->
  job_warnings job_id job = Ok ["Empty job: " ++ py_str job_id].
Proof.
  intros Ht. unfold job_warnings, check_job. rewrite Ht. reflexivity.
Qed.

(** The warnings of a jobs mapping split around any one of its jobs. *)
Lemma jobs_warnings_split
  (before after : list (scalar * value)) (job_id : scalar) (job : value)
  (ws : list string) :
  jobs_warnings (before ++ (job_id, job) :: after) = Ok ws ->
  exists wb wj wa,
    jobs_warnings before = Ok wb /\ job_warnings job_id job = Ok wj
    /\ jobs_warnings after = Ok wa /\ ws = (wb ++ wj ++ wa)%list.
Proof.
  rewrite jobs_warnings_app. intros H.
  apply bind_Ok in H as [wb [Hb H]].
  apply bind_Ok in H as [wr [Hr H]]. injection H as <-.
  cbn [jobs_warnings] in Hr.
  apply bind_Ok in Hr as [wj [Hj Hr]].
  apply bind_Ok in Hr as [wa [Ha Hr]]. injection Hr as <-.
  exists wb, wj, wa. auto.
Qed.

(** C3, as the specification words it, fails on a job that has
    neither [runs-on] nor [steps]: both warnings are given. *)
Lemma runs_on_and_steps_warnings_together :
  ~ runs_on_warning_excludes_steps_warning sample_load
      "{name: CI, on: push, jobs: {build: {name: x}}}".
Proof.
  intros H.
  destruct (H [ (SStr "name", VStr "CI"); (SBool true, VStr "push");
                (SStr "jobs", VDict [ (SStr "build", VDict [ (SStr "name", VStr "x") ]) ]) ]
              [ (SStr "build", VDict [ (SStr "name", VStr "x") ]) ]
              (SStr "build") (VDict [ (SStr "name", VStr "x") ])
              (mk_report true
                 [ "Missing runs-on in job: build"; "Missing steps in job: build" ]
                 [ checkout_hint ])
              eq_refl eq_refl (or_introl eq_refl) eq_refl eq_refl eq_refl)
    as [_ Hn].
  apply Hn. right; left; reflexivity.
Qed.

(** C3, amended.  The two per-job tests are independent.  On a
    mapping document whose checks complete, a truthy job without
    [runs-on] contributes, between the warnings of the jobs before it
    and those of the jobs after it, the runs-on warning, followed by
    the steps warning exactly when the job has no [steps] either. *)
Theorem runs_on_and_steps_checked_independently
  (safe_load : string -> result value) (content : string)
  (d jobs before after : list (scalar * value))
  (job_id : scalar) (job : value) (r : report)
  (Hparse : safe_load content = Ok (VDict d))
  (Hjobs : dict_lookup "jobs" d = Some (VDict jobs))
  (Hsplit : jobs = (before ++ (job_id, job) :: after)%list)
  (Htruthy : py_truthy job = true)
  (Hruns_on : py_in "runs-on" job = Ok false)
  (Hbody : validate_body safe_load content = Ok r) :
  validate_workflow safe_load content = Ok r
  /\ exists has_steps wb wa,
       py_in "steps" job = Ok has_steps
       /\ jobs_warnings before = Ok wb
       /\ jobs_warnings after = Ok wa
       /\ warnings r =
          (top_warnings d ++ wb
             ++ ("Missing runs-on in job: " ++ py_str job_id)%string
                :: (if has_steps then []
                    else [("Missing steps in job: " ++ py_str job_id)%string])
             ++ wa)%list.
Proof.
  split.
  { unfold validate_workflow. rewrite Hbody. reflexivity. }
  unfold validate_body in Hbody. rewrite Hparse in Hbody. cbn [bind] in Hbody.
  destruct (validate_document_jobs_warnings _ Hjobs Hbody) as [ws [Hws [Hw _]]].
  subst jobs.
  apply jobs_warnings_split in Hws as [wb [wj [wa [Hb [Hj [Ha ->]]]]]].
  rewrite (job_warnings_without_runs_on _ _ Htruthy Hruns_on) in Hj.
  apply bind_Ok in Hj as [has_steps [Hs Hj]]. injection Hj as <-.
  exists has_steps, wb, wa. rewrite Hw. auto.
Qed.

Lemma runs_on_and_steps_checked_independently_witness :
  let content := "{name: CI, on: push, jobs: {build: {name: x}}}" in
  let job := VDict [ (SStr "name", VStr "x") ] in
  let r := mk_report true
             [ "Missing runs-on in job: build"; "Missing steps in job: build" ]
             [ checkout_hint ] in
  validate_workflow sample_load content = Ok r
  /\ exists has_steps wb wa,
       py_in "steps" job = Ok has_steps
       /\ jobs_warnings [] = Ok wb
       /\ jobs_warnings [] = Ok wa
       /\ warnings r =
          (top_warnings [ (SStr "name", VStr "CI"); (SBool true, VStr "push");
                          (SStr "jobs", VDict [ (SStr "build", job) ]) ]
             ++ wb
             ++ ("Missing runs-on in job: " ++ py_str (SStr "build"))%string
                :: (if has_steps then []
                    else [("Missing steps in job: " ++ py_str (SStr "build"))%string])
             ++ wa)%list.
Proof.
  intros content job r.
  apply (@runs_on_and_steps_checked_independently sample_load content
           [ (SStr "name", VStr "CI"); (SBool true, VStr "push");
             (SStr "jobs", VDict [ (SStr "build", job) ]) ]
           [ (SStr "build", job) ] [] [] (SStr "build") job r);
    reflexivity.
Defined.

(** ** Empty jobs *)

(** An empty mapping as a job: the scan passes over it. *)
Lemma scan_jobs_empty_mapping (job_id : scalar) (rest : list (scalar * value)) :
  scan_jobs ((job_id, VDict []) :: rest) = scan_jobs rest.
Proof. reflexivity. Qed.

(** The case of the specification's example, [jobs: { build: {} }]:
    on a document whose checks complete, a job that is an empty
    mapping contributes the warning ["Empty job: <job_id>"] and nothing
    else, and [valid] only depends on the trigger section. *)
Lemma empty_mapping_job_reported
  (safe_load : string -> result value) (content : string)
  (d jobs before after : list (scalar * value)) (job_id : scalar) (r : report) :
  safe_load content = Ok (VDict d) ->
  dict_lookup "jobs" d = Some (VDict jobs) ->
  jobs = (before ++ (job_id, VDict []) :: after)%list ->
  validate_body safe_load content = Ok r ->
  exists wb wa,
    jobs_warnings before = Ok wb /\ jobs_warnings after = Ok wa
    /\ warnings r
       = (top_warnings d ++ wb ++ ("Empty job: " ++ py_str job_id)%string :: wa)%list
    /\ valid r = on_present d.
Proof.
  intros Hparse Hjobs -> Hbody.
  unfold validate_body in Hbody. rewrite Hparse in Hbody. cbn [bind] in Hbody.
  destruct (validate_document_jobs_warnings _ Hjobs Hbody) as [ws [Hws [Hw Hv]]].
  apply jobs_warnings_split in Hws as [wb [wj [wa [Hb [Hj [Ha ->]]]]]].
  rewrite job_warnings_falsy in Hj by reflexivity. injection Hj as <-.
  exists wb, wa. auto.
Qed.

(** C4, on the code.  A job written [build:] is [None].  The per-job
    loop reports it as ["Empty job: build"]; the checkout scan then
    calls [.get] on it, the generic handler answers, and the report
    that is returned is invalid and has lost the warning.  The same
    workflow with [build: {}] keeps it. *)
Theorem null_job_loses_empty_job_warning :
  jobs_warnings [ (SStr "build", VNone) ] = Ok ["Empty job: build"]
  /\ scan_jobs [ (SStr "build", VNone) ]
     = Raise (mk_exn AttributeError "'NoneType' object has no attribute 'get'")
  /\ validate_workflow sample_load "{name: CI, on: push, jobs: {build: null}}"
     = Ok (mk_report false
             ["Validation error: 'NoneType' object has no attribute 'get'"] [])
  /\ validate_workflow sample_load "{name: CI, on: push, jobs: {build: {}}}"
     = Ok (mk_report true ["Empty job: build"] [checkout_hint]).
Proof. repeat split. Qed.

(** ** The trigger section *)

Lemma trigger_key_not_other_str (s : string) (k : scalar) :
  s <> "on" -> trigger_key k = true -> scalar_eq_str s k = false.
Proof.
  intros Hs Hk. destruct k as [| |z|t|n b x]; try reflexivity.
  simpl in *. apply String.eqb_eq in Hk. subst t.
  apply String.eqb_neq. congruence.
Qed.

Lemma respelling_keeps_lookup (s : string) (d d' : list (scalar * value)) :
  s <> "on" -> same_up_to_trigger_spelling d d' ->
  dict_lookup s d = dict_lookup s d'.
Proof.
  intros Hs H. induction H as [|[k v] [k' v'] d d' [Hv Hk] _ IH]; [reflexivity|].
  simpl in Hv, Hk. subst v'. cbn [dict_lookup]. rewrite IH.
  destruct Hk as [<- | [Hk Hk']]; [reflexivity|].
  rewrite !(trigger_key_not_other_str _ Hs) by assumption. reflexivity.
Qed.

Lemma respelling_keeps_trigger (d d' : list (scalar * value)) :
  same_up_to_trigger_spelling d d' -> on_present d = on_present d'.
Proof.
  intros H. induction H as [|[k v] [k' v'] d d' [Hv Hk] _ IH]; [reflexivity|].
  unfold on_present in *. cbn [existsb fst]. simpl in Hk. rewrite IH.
  destruct Hk as [<- | [-> ->]]; reflexivity.
Qed.

Lemma check_jobs_section_lookup (d d' : list (scalar * value)) (vr : report) :
  dict_lookup "jobs" d = dict_lookup "jobs" d' ->
  check_jobs_section (VDict d) vr = check_jobs_section (VDict d') vr.
Proof.
  intros H. unfold check_jobs_section, check_best_practices.
  cbn [py_in py_get py_getitem].
  fold (has_key "jobs" d). fold (has_key "jobs" d').
  rewrite !dict_lookup_has_key, H. reflexivity.
Qed.

(** The checks cannot tell ['on'] from [True] as a top-level key. *)
Lemma respelling_keeps_report (d d' : list (scalar * value)) :
  same_up_to_trigger_spelling d d' ->
  validate_document (VDict d) = validate_document (VDict d').
Proof.
  intros H. destruct H as [|kv kv' d d' Hkv Hrest]; [reflexivity|].
  assert (Hall : same_up_to_trigger_spelling (kv :: d) (kv' :: d'))
    by (constructor; assumption).
  rewrite !validate_document_dict by discriminate.
  unfold top_warnings, has_key.
  rewrite (respelling_keeps_trigger Hall).
  pose proof (@respelling_keeps_lookup "name" _ _ ltac:(discriminate) Hall) as Hn.
  pose proof (dict_lookup_has_key "name" (kv :: d)) as E.
  pose proof (dict_lookup_has_key "name" (kv' :: d')) as E'.
  unfold has_key in E, E'. rewrite E, E', Hn.
  apply check_jobs_section_lookup.
  apply respelling_keeps_lookup; [discriminate | exact Hall].
Qed.

(** With a mapping, the report carries the top-level warnings first. *)
Lemma validate_document_top_warnings (d : list (scalar * value)) (r : report) :
  d <> [] ->
  validate_document (VDict d) = Ok r ->
  exists ws, warnings r = (top_warnings d ++ ws)%list /\ valid r = on_present d && has_key "jobs" d.
Proof.
  intros Hd H. destruct (has_key "jobs" d) eqn:Hk.
  - pose proof (dict_lookup_has_key "jobs" d) as E. rewrite Hk in E.
    destruct (dict_lookup "jobs" d) as [v|] eqn:Hl; [|discriminate E].
    assert (Hv : exists jobs, v = VDict jobs).
    { rewrite (validate_document_dict Hd) in H. unfold check_jobs_section in H.
      cbn [py_in bind] in H. fold (has_key "jobs" d) in H. rewrite Hk in H.
      cbn [negb py_get bind] in H. rewrite Hl in H.
      destruct v as [k|l|l|jobs|l]; try discriminate H. exists jobs; reflexivity. }
    destruct Hv as [jobs ->].
    destruct (validate_document_jobs_warnings _ Hl H) as [ws [_ [Hw Hv]]].
    exists ws. rewrite andb_true_r. auto.
  - rewrite (validate_document_no_jobs Hd Hk) in H. injection H as <-.
    exists ["Missing jobs section"]. rewrite andb_false_r. auto.
Qed.

Lemma top_warnings_without_trigger (d : list (scalar * value)) :
  on_present d = false -> In "Missing trigger events (on:)" (top_warnings d).
Proof.
  intros H. unfold top_warnings. rewrite H. apply in_or_app. right. left. reflexivity.
Qed.

(** C5, as the specification words it, fails on the empty mapping:
    it has no trigger key, and the report carries
    ["Empty workflow file"], not the trigger warning. *)
Lemma empty_mapping_gets_no_trigger_warning :
  ~ trigger_check_on_every_mapping sample_load "{}".
Proof.
  intros H.
  destruct (H [] (mk_report false ["Empty workflow file"] []) eq_refl eq_refl)
    as [_ H2].
  destruct H2 as [_ [E|[]]].
  - intros [k [v [[] _]]].
  - discriminate E.
Qed.

(** C5, amended.  On a non-empty mapping, the trigger loop finds a
    key exactly when some top-level key is ['on'] or [True]; a
    document that spells the key the other way gets the same report;
    and when there is no such key, the trigger check turns the report
    it is given invalid and appends the trigger warning to it, the
    returned report is invalid, and it carries the trigger warning
    whenever the later checks complete. *)
Theorem trigger_check_on_nonempty_mapping
  (safe_load : string -> result value) (content : string)
  (d : list (scalar * value))
  (Hparse : safe_load content = Ok (VDict d))
  (Hnonempty : d <> []) :
  (has_on (VDict d) = Ok true <-> has_trigger_section d)
  /\ (forall content' d',
        safe_load content' = Ok (VDict d') ->
        same_up_to_trigger_spelling d d' ->
        validate_workflow safe_load content' = validate_workflow safe_load content)
  /\ (~ has_trigger_section d ->
      (forall vr, check_on (VDict d) vr
                  = Ok (add_warning "Missing trigger events (on:)"
                          (set_valid false vr)))
      /\ exists r,
           validate_workflow safe_load content = Ok r
           /\ valid r = false
           /\ (validate_body safe_load content = Ok r ->
               In "Missing trigger events (on:)" (warnings r))).
Proof.
  split; [|split].
  - rewrite has_on_dict, <- on_present_spec.
    split; [intros H; injection H as ->; reflexivity | intros ->; reflexivity].
  - intros content' d' Hparse' Hsame.
    unfold validate_workflow, validate_body. rewrite Hparse, Hparse'.
    cbn [bind]. rewrite (respelling_keeps_report Hsame). reflexivity.
  - intros Habsent.
    assert (Hon : on_present d = false).
    { destruct (on_present d) eqn:E; [|reflexivity].
      elim Habsent. apply on_present_spec, E. }
    split.
    + intros vr. unfold check_on. rewrite has_on_dict, Hon. reflexivity.
    + pose proof (validate_workflow_cases safe_load content) as Hret.
      unfold validate_body in *. rewrite Hparse in *. cbn [bind] in *.
      destruct (validate_document (VDict d)) as [r|e] eqn:Hdoc.
      * exists r. split; [exact Hret|].
        destruct (validate_document_top_warnings Hnonempty Hdoc) as [ws [Hw Hv]].
        split.
        -- rewrite Hv, Hon. reflexivity.
        -- intros _. rewrite Hw. apply in_or_app. left.
           apply top_warnings_without_trigger, Hon.
      * eexists. split; [exact Hret|].
        split; [apply handler_report_shape | intros H; discriminate H].
Qed.

Lemma trigger_check_on_nonempty_mapping_witness :
  let content := "{name: CI}" in
  let d := [ (SStr "name", VStr "CI") ] in
  (has_on (VDict d) = Ok true <-> has_trigger_section d)
  /\ (forall content' d',
        sample_load content' = Ok (VDict d') ->
        same_up_to_trigger_spelling d d' ->
        validate_workflow sample_load content' = validate_workflow sample_load content)
  /\ (~ has_trigger_section d ->
      (forall vr, check_on (VDict d) vr
                  = Ok (add_warning "Missing trigger events (on:)"
                          (set_valid false vr)))
      /\ exists r,
           validate_workflow sample_load content = Ok r
           /\ valid r = false
           /\ (validate_body sample_load content = Ok r ->
               In "Missing trigger events (on:)" (warnings r))).
Proof.
  intros content d.
  apply (@trigger_check_on_nonempty_mapping sample_load content d);
    [reflexivity | discriminate].
Defined.

(** ** The three top-level findings *)

(** C7, as the specification words it, fails on the empty mapping: it
    lacks the three keys, and none of the three warnings is given. *)
Lemma empty_mapping_gets_no_missing_section_warning :
  ~ three_warnings_on_every_mapping sample_load "{}".
Proof.
  intros H.
  destruct (H [] (mk_report false ["Empty workflow file"] [])
              eq_refl eq_refl) as [_ Hord].
  - intros [k [v [[] _]]].
  - reflexivity.
  - reflexivity.
  - discriminate Hord.
Qed.

(** C7, amended.  On a non-empty mapping that has no ['name'] key, no
    trigger key and no ['jobs'] key, the checks themselves return
    (the handlers are not involved) an invalid report whose warnings
    are the three top-level findings, in this order, and nothing else:
    no per-job warning, no suggestion. *)
Theorem three_warnings_on_nonempty_mapping
  (safe_load : string -> result value) (content : string)
  (d : list (scalar * value))
  (Hparse : safe_load content = Ok (VDict d))
  (Hnonempty : d <> [])
  (Hname : py_in "name" (VDict d) = Ok false)
  (Htrigger : ~ has_trigger_section d)
  (Hjobs : py_in "jobs" (VDict d) = Ok false) :
  let r := mk_report false
             [ "Missing workflow name"; "Missing trigger events (on:)";
               "Missing jobs section" ] [] in
  validate_body safe_load content = Ok r
  /\ validate_workflow safe_load content = Ok r
  /\ in_order [ "Missing workflow name"; "Missing trigger events (on:)";
                "Missing jobs section" ] (warnings r) = true.
Proof.
  intros r.
  assert (Hbody : validate_body safe_load content = Ok r).
  { unfold validate_body. rewrite Hparse. cbn [bind].
    cbn [py_in] in Hname, Hjobs.
    fold (has_key "name" d) in Hname. fold (has_key "jobs" d) in Hjobs.
    injection Hname as Hname. injection Hjobs as Hjobs.
    rewrite (validate_document_no_jobs Hnonempty Hjobs).
    unfold top_warnings. rewrite Hname.
    destruct (on_present d) eqn:E; [|reflexivity].
    elim Htrigger. apply on_present_spec, E. }
  split; [exact Hbody|]. split; [|reflexivity].
  unfold validate_workflow. rewrite Hbody. reflexivity.
Qed.

Lemma three_warnings_on_nonempty_mapping_witness :
  let r := mk_report false
             [ "Missing workflow name"; "Missing trigger events (on:)";
               "Missing jobs section" ] [] in
  validate_body sample_load "{run: echo hi}" = Ok r
  /\ validate_workflow sample_load "{run: echo hi}" = Ok r
  /\ in_order [ "Missing workflow name"; "Missing trigger events (on:)";
                "Missing jobs section" ] (warnings r) = true.
Proof.
  apply (@three_warnings_on_nonempty_mapping sample_load "{run: echo hi}"
           [ (SStr "run", VStr "echo hi") ]).
  - reflexivity.
  - discriminate.
  - reflexivity.
  - intros [k [v [[E|[]] [Hk|Hk]]]]; rewrite Hk in E; discriminate E.
  - reflexivity.
Defined.

(** ** The checkout hint *)

(** C8, as the specification words it, fails on a job that is a
    string: the jobs mapping is not empty, no step of any job is a
    checkout step, and the report has no suggestion. *)
Lemma no_hint_for_string_job :
  ~ hint_iff_no_checkout_step sample_load "{name: CI, on: push, jobs: {build: oops}}".
Proof.
  intros H.
  specialize (H [ (SStr "name", VStr "CI"); (SBool true, VStr "push");
                  (SStr "jobs", VDict [ (SStr "build", VStr "oops") ]) ]
                [ (SStr "build", VStr "oops") ]
                (mk_report false
                   ["Validation error: 'str' object has no attribute 'get'"] [])
                eq_refl eq_refl ltac:(discriminate) eq_refl).
  discriminate H.
Qed.

(** C8, amended.  With a non-empty jobs mapping: when the checks
    complete, the suggestions are the checkout hint alone if no step of
    any job is a checkout step, and nothing if one is; when a check
    raises, there is no suggestion.  So a document with a checkout step
    never gets the hint. *)
Theorem hint_iff_no_checkout_step_when_checks_complete
  (safe_load : string -> result value) (content : string)
  (d jobs : list (scalar * value)) (r : report)
  (Hparse : safe_load content = Ok (VDict d))
  (Hjobs : dict_lookup "jobs" d = Some (VDict jobs))
  (Hnonempty : jobs <> [])
  (Hret : validate_workflow safe_load content = Ok r) :
  (validate_body safe_load content = Ok r ->
   suggestions r = if any_checkout jobs then [] else [checkout_hint])
  /\ (forall e, validate_body safe_load content = Raise e -> suggestions r = [])
  /\ (any_checkout jobs = true -> suggestions r = []).
Proof.
  assert (Hok : validate_body safe_load content = Ok r ->
                suggestions r = if any_checkout jobs then [] else [checkout_hint]).
  { unfold validate_body. rewrite Hparse. cbn [bind].
    rewrite (validate_document_jobs _ Hjobs). intros H.
    apply bind_Ok in H as [ws [_ H]].
    destruct jobs as [|job rest]; [now elim Hnonempty|]. cbn [nonempty] in H.
    apply bind_Ok in H as [hc [Hscan H]].
    apply scan_jobs_sound in Hscan. rewrite <- Hscan.
    injection H as <-. reflexivity. }
  pose proof (validate_workflow_cases safe_load content) as Hcases.
  assert (Hexn : forall e, validate_body safe_load content = Raise e ->
                           suggestions r = []).
  { intros e He. rewrite He, Hret in Hcases. injection Hcases as ->.
    apply handler_report_shape. }
  split; [exact Hok|]. split; [exact Hexn|].
  intros Hany. destruct (validate_body safe_load content) as [r'|e] eqn:Hbody.
  - rewrite Hret in Hcases. injection Hcases as ->.
    rewrite (Hok eq_refl), Hany. reflexivity.
  - apply (Hexn e eq_refl).
Qed.

Lemma hint_iff_no_checkout_step_when_checks_complete_witness :
  let content :=
    "{name: CI, on: {push: {branches: [main]}}, jobs: {build: {runs-on: ubuntu-latest, steps: [{run: echo hi}]}}}" in
  let jobs := [ (SStr "build", job_without_checkout) ] in
  let r := mk_report true [] [checkout_hint] in
  (validate_body sample_load content = Ok r ->
   suggestions r = if any_checkout jobs then [] else [checkout_hint])
  /\ (forall e, validate_body sample_load content = Raise e -> suggestions r = [])
  /\ (any_checkout jobs = true -> suggestions r = []).
Proof.
  intros content jobs r.
  apply (@hint_iff_no_checkout_step_when_checks_complete sample_load content
           [ (SStr "name", VStr "CI"); (SBool true, trigger);
             (SStr "jobs", VDict jobs) ] jobs r);
    [reflexivity | reflexivity | discriminate | reflexivity].
Defined.

(** ** A job that is not a mapping *)

Lemma scan_jobs_past (before rest : list (scalar * value)) :
  scan_jobs before = Ok false ->
  scan_jobs (before ++ rest) = scan_jobs rest.
Proof.
  induction before as [|[job_id job] before IH]; cbn [scan_jobs app]; intros H;
    [reflexivity|].
  destruct (py_get job "steps" (VList [])) as [steps_obj|e]; [|discriminate H].
  cbn [bind] in *.
  destruct (py_iter steps_obj) as [steps|e]; [|discriminate H].
  cbn [bind] in *.
  destruct (scan_steps steps) as [[|]|e]; try discriminate H.
  cbn [bind] in *. apply IH, H.
Qed.

(** C9.  Take a mapping document with a jobs mapping in which some
    job value is not a mapping ([None], a string, ...), such that the
    per-job loop completes and the scan finds no checkout step in the
    jobs before it.  The report built so far holds the top-level
    warnings (the missing-name one when there is no name) and the
    per-job warnings (the empty-job one when the value is falsy); the
    scan then raises [AttributeError] on [.get], and the report that
    is returned is invalid, has the single warning
    ["Validation error: ..."], no suggestion, and none of the warnings
    built so far. *)
Theorem scan_failure_discards_warnings
  (safe_load : string -> result value) (content : string)
  (d jobs before after : list (scalar * value))
  (job_id : scalar) (job : value) (ws : list string)
  (Hparse : safe_load content = Ok (VDict d))
  (Hjobs : dict_lookup "jobs" d = Some (VDict jobs))
  (Hsplit : jobs = (before ++ (job_id, job) :: after)%list)
  (Hjob : forall jd, job <> VDict jd)
  (Hbefore : scan_jobs before = Ok false)
  (Hchecks : jobs_warnings jobs = Ok ws) :
  let e := mk_exn AttributeError
             ("'" ++ type_name job ++ "' object has no attribute 'get'") in
  check_jobs jobs (mk_report (on_present d) (top_warnings d) [])
  = Ok (mk_report (on_present d) (top_warnings d ++ ws)%list [])
  /\ (py_truthy job = false -> In ("Empty job: " ++ py_str job_id) ws)
  /\ (has_key "name" d = false -> In "Missing workflow name" (top_warnings d))
  /\ scan_jobs jobs = Raise e
  /\ validate_body safe_load content = Raise e
  /\ validate_workflow safe_load content
     = Ok (mk_report false ["Validation error: " ++ exn_str e] []).
Proof.
  intros e.
  assert (Hscan : scan_jobs jobs = Raise e).
  { subst jobs. rewrite (@scan_jobs_past before _ Hbefore). cbn [scan_jobs].
    destruct job as [k|l|l|jd|l]; try reflexivity. now elim (Hjob jd). }
  assert (Hbody : validate_body safe_load content = Raise e).
  { unfold validate_body. rewrite Hparse. cbn [bind].
    rewrite (validate_document_jobs _ Hjobs), Hchecks. cbn [bind].
    replace (nonempty jobs) with true
      by (subst jobs; destruct before; reflexivity).
    rewrite Hscan. reflexivity. }
  split; [|split; [|split; [|split; [exact Hscan | split; [exact Hbody|]]]]].
  - rewrite check_jobs_frame, Hchecks. reflexivity.
  - intros Hfalsy. subst jobs.
    apply jobs_warnings_split in Hchecks as [wb [wj [wa [_ [Hj [_ ->]]]]]].
    rewrite (job_warnings_falsy _ _ Hfalsy) in Hj. injection Hj as <-.
    apply in_or_app. right. left. reflexivity.
  - intros Hname. unfold top_warnings. rewrite Hname. left. reflexivity.
  - unfold validate_workflow. rewrite Hbody. reflexivity.
Qed.

Lemma scan_failure_discards_warnings_witness :
  let content := "{on: push, jobs: {build: null}}" in
  let jobs := [ (SStr "build", VNone) ] in
  let d := [ (SBool true, VStr "push"); (SStr "jobs", VDict jobs) ] in
  let ws := [ "Empty job: build" ] in
  let e := mk_exn AttributeError "'NoneType' object has no attribute 'get'" in
  check_jobs jobs (mk_report (on_present d) (top_warnings d) [])
  = Ok (mk_report (on_present d) (top_warnings d ++ ws)%list [])
  /\ (py_truthy VNone = false -> In ("Empty job: " ++ py_str (SStr "build")) ws)
  /\ (has_key "name" d = false -> In "Missing workflow name" (top_warnings d))
  /\ scan_jobs jobs = Raise e
  /\ validate_body sample_load content = Raise e
  /\ validate_workflow sample_load content
     = Ok (mk_report false ["Validation error: " ++ exn_str e] []).
Proof.
  intros content jobs d ws e.
  apply (@scan_failure_discards_warnings sample_load content d jobs [] []
           (SStr "build") VNone ws);
    [reflexivity | reflexivity | reflexivity | discriminate
    | reflexivity | reflexivity].
Defined.

(** ** The examples of the specification and of the test suite *)

Example workflow_with_checkout :
  validate_workflow sample_load
    "{name: CI, on: {push: {branches: [main]}}, jobs: {build: {runs-on: ubuntu-latest, steps: [{uses: actions/checkout@v3}, {run: echo hi}]}}}"
  = Ok (mk_report true [] []).
Proof. reflexivity. Qed.

Example workflow_without_checkout :
  validate_workflow sample_load
    "{name: CI, on: {push: {branches: [main]}}, jobs: {build: {runs-on: ubuntu-latest, steps: [{run: echo hi}]}}}"
  = Ok (mk_report true [] [checkout_hint]).
Proof. reflexivity. Qed.

Example workflow_missing_required :
  validate_workflow sample_load "{name: CI}"
  = Ok (mk_report false
          [ "Missing trigger events (on:)"; "Missing jobs section" ] []).
Proof. reflexivity. Qed.

Example workflow_with_string_job :
  validate_workflow sample_load "{on: push, jobs: {build: oops}}"
  = Ok (mk_report false
          ["Validation error: 'str' object has no attribute 'get'"] [])
  /\ jobs_warnings [ (SStr "build", VStr "oops") ]
     = Ok [ "Missing runs-on in job: build"; "Missing steps in job: build" ].
Proof. split; reflexivity. Qed.

(* ===================================================================== *)
(** * The helpers and the tools *)
(* ===================================================================== *)

(** ** The wrapper *)

Lemma str_app_assoc (a b c : string) : (a ++ b) ++ c = a ++ (b ++ c).
Proof. induction a as [|x a IH]; simpl; [reflexivity | rewrite IH; reflexivity]. Qed.

Lemma reraise_Ok {A : Type} (prefix : string) (body : result A) (a : A) :
  reraise prefix body = Ok a <-> body = Ok a.
Proof.
  unfold reraise. destruct body as [a'|e]; simpl; split; intros H;
    try exact H; discriminate H.
Qed.

Lemma reraise_Raise {A : Type} (prefix : string) (e : exn) :
  @reraise A prefix (Raise e) = value_error (prefix ++ exn_str e).
Proof. reflexivity. Qed.

Lemma reraise_value_error {A : Type} (prefix msg : string) :
  @reraise A prefix (value_error msg) = value_error (prefix ++ msg).
Proof. reflexivity. Qed.

(** What escapes from the wrapper is a [ValueError] whose text is the
    prefix followed by the text of what the body raised. *)
Lemma reraise_inv {A : Type} (prefix : string) (body : result A) (e : exn) :
  reraise prefix body = Raise e ->
  exists inner,
    body = Raise inner /\ e = mk_exn ValueError (prefix ++ exn_str inner).
Proof.
  destruct body as [a|inner]; intros H.
  - discriminate H.
  - exists inner. rewrite reraise_Raise in H. injection H as <-. auto.
Qed.

Section HelperProperties.

Variable G : Platform.

(** X1.  [get_github_client] builds a client exactly when it is given
    a non-empty token, or no token while [GITHUB_TOKEN] holds a
    non-empty one; the client holds that token.  A token given
    explicitly is never replaced by the variable: an empty one fails
    whatever the environment.  The only failure is the [ValueError]
    on the missing token. *)
Theorem get_github_client_spec (token : option string) :
  (forall c, get_github_client G token = Ok c <->
     auth_token c <> ""
     /\ (token = Some (auth_token c)
         \/ (token = None /\ environ G "GITHUB_TOKEN" = Some (auth_token c))))
  /\ (forall e, get_github_client G token = Raise e ->
                e = mk_exn ValueError no_token_message)
  /\ get_github_client G (Some "") = value_error no_token_message.
Proof.
  split; [|split; [|reflexivity]].
  - intros [t]. unfold get_github_client. cbn [auth_token].
    destruct token as [t'|].
    + destruct (String.eqb_spec t' "") as [->|Hne]; split.
      * intros H; discriminate H.
      * intros [Ht [E|[E _]]]; [|discriminate E].
        injection E as <-. now elim Ht.
      * intros H; injection H as <-. auto.
      * intros [_ [E|[E _]]]; [|discriminate E]. injection E as <-. reflexivity.
    + destruct (environ G "GITHUB_TOKEN") as [t'|].
      * destruct (String.eqb_spec t' "") as [->|Hne]; split.
        -- intros H; discriminate H.
        -- intros [Ht [E|[_ E]]]; [discriminate E|].
           injection E as <-. now elim Ht.
        -- intros H; injection H as <-. auto.
        -- intros [_ [E|[_ E]]]; [discriminate E|]. injection E as <-. reflexivity.
      * split; [intros H; discriminate H|].
        intros [_ [E|[_ E]]]; discriminate E.
  - intros e. unfold get_github_client.
    destruct token as [t|]; [|destruct (environ G "GITHUB_TOKEN") as [t|]];
      try destruct (String.eqb t ""); intros H; try discriminate H;
      injection H as <-; reflexivity.
Qed.

(** X2.  [get_repository] returns a repository exactly when a client
    can be built and [get_repo] returns that repository with it.
    Otherwise it raises a [ValueError] whose text is
    ["Error accessing repository <name>: "] followed by the text of the
    cause, be it the missing token or the exception of the request. *)
Theorem get_repository_spec (repo_name : string) (token : option string) (w : world G) :
  (forall repo, get_repository G repo_name token w = Ok repo <->
     exists client, get_github_client G token = Ok client
                    /\ get_repo G client repo_name w = Ok repo)
  /\ (forall e, get_repository G repo_name token w = Raise e ->
        exists cause,
          e = mk_exn ValueError
                ("Error accessing repository " ++ repo_name ++ ": " ++ exn_str cause)
          /\ (get_github_client G token = Raise cause
              \/ exists client, get_github_client G token = Ok client
                                /\ get_repo G client repo_name w = Raise cause)).
Proof.
  unfold get_repository. split.
  - intros repo. rewrite reraise_Ok.
    destruct (get_github_client G token) as [client|e]; cbn [bind]; split.
    + intros H. exists client. auto.
    + intros [c [E H]]. injection E as <-. exact H.
    + intros H; discriminate H.
    + intros [c [E _]]; discriminate E.
  - intros e H. apply reraise_inv in H as [cause [Hb ->]].
    exists cause. split; [rewrite !str_app_assoc; reflexivity|].
    destruct (get_github_client G token) as [client|e']; cbn [bind] in Hb.
    + right. exists client. auto.
    + left. injection Hb as ->. reflexivity.
Qed.

(** Without a client, [get_repository] fails with the same text for
    every state of GitHub. *)
Lemma get_repository_without_token (repo_name : string) (token : option string)
  (w : world G) :
  get_github_client G token = value_error no_token_message ->
  get_repository G repo_name token w =
  value_error ("Error accessing repository " ++ repo_name ++ ": " ++ no_token_message).
Proof.
  unfold get_repository. intros ->. cbn [bind value_error].
  rewrite reraise_Raise. cbn [exn_str]. rewrite !str_app_assoc. reflexivity.
Qed.

(** X3.  Without a token no request is made: each tool that needs a
    repository raises a [ValueError] whose text names the tool, the
    helper, the repository and the missing token, the same for every
    state of GitHub and every answer it could give; the tool that
    writes leaves the state as it is. *)
Theorem tools_without_token
  (repo_name : string) (token : option string) (w : world G)
  (Hno_client : get_github_client G token = value_error no_token_message) :
  let cause := "Error accessing repository " ++ repo_name ++ ": " ++ no_token_message in
  list_workflows_tool G repo_name token w
  = value_error ("Error listing workflows: Error listing workflows for "
                 ++ repo_name ++ ": " ++ cause)
  /\ (forall ref,
        get_workflow_tool G repo_name ref token w
        = value_error ("Error getting workflow: Error getting workflow "
                       ++ ref_str ref ++ " for " ++ repo_name ++ ": " ++ cause))
  /\ (forall ref status limit,
        list_workflow_runs_tool G repo_name ref status limit token w
        = value_error ("Error listing workflow runs: Error listing workflow runs for "
                       ++ repo_name ++ ": " ++ cause))
  /\ (forall path content message doc,
        safe_load G content = Ok doc ->
        create_or_update_workflow_tool G repo_name path content message token w
        = (value_error ("Error creating/updating workflow: "
                        ++ "Error creating/updating workflow " ++ path
                        ++ " for " ++ repo_name ++ ": " ++ cause), w)).
Proof.
  intros cause.
  pose proof (get_repository_without_token repo_name token w Hno_client) as Hrepo.
  fold cause in Hrepo.
  split; [|split; [|split]].
  - unfold list_workflows_tool, list_workflows. rewrite Hrepo.
    cbn [bind value_error]. rewrite !reraise_Raise. cbn [exn_str value_error].
    rewrite !str_app_assoc. reflexivity.
  - intros ref. unfold get_workflow_tool, get_workflow. rewrite Hrepo.
    cbn [bind value_error]. rewrite !reraise_Raise. cbn [exn_str value_error].
    rewrite !str_app_assoc. reflexivity.
  - intros ref status limit.
    unfold list_workflow_runs_tool, list_workflow_runs. rewrite Hrepo.
    cbn [bind value_error]. rewrite !reraise_Raise. cbn [exn_str value_error].
    rewrite !str_app_assoc. reflexivity.
  - intros path content message doc Hload.
    unfold create_or_update_workflow_tool, create_or_update_workflow,
      create_or_update_body.
    rewrite Hload, Hrepo. cbn [reraise try_except value_error].
    cbn [dispatch issubclass exn_class exn_str value_error].
    rewrite !str_app_assoc. reflexivity.
Qed.

(** X4.  [validate_workflow_tool] returns what [validate_workflow]
    returns, for every text: the validator never raises, so the
    wrapper of the tool never acts, and the tool never raises. *)
Theorem validate_workflow_tool_transparent (content : string) :
  validate_workflow_tool G content = validate_workflow (safe_load G) content
  /\ exists r, validate_workflow_tool G content = Ok r.
Proof.
  pose proof (validate_workflow_cases (safe_load G) content) as H.
  unfold validate_workflow_tool.
  destruct (validate_body (safe_load G) content); rewrite H;
    (split; [reflexivity | eexists; reflexivity]).
Qed.

End HelperProperties.

(** ** [endswith] *)

Lemma substring_zero (n : nat) (s : string) : substring n 0 s = "".
Proof.
  revert s; induction n as [|n IH]; intros [|a s]; simpl; auto.
Qed.

Lemma substring_all (s : string) : substring 0 (String.length s) s = s.
Proof. induction s as [|a s IH]; simpl; [reflexivity | rewrite IH; reflexivity]. Qed.

Lemma substring_skip (pre s : string) (n : nat) :
  substring (String.length pre) n (pre ++ s) = substring 0 n s.
Proof. induction pre as [|a pre IH]; simpl; [reflexivity | exact IH]. Qed.

Lemma str_length_app (a b : string) :
  String.length (a ++ b) = (String.length a + String.length b)%nat.
Proof. induction a as [|x a IH]; simpl; [reflexivity | rewrite IH; reflexivity]. Qed.

(** A string is its first [n] characters followed by the rest. *)
Lemma substring_split (s : string) (n : nat) :
  (n <= String.length s)%nat ->
  s = substring 0 n s ++ substring n (String.length s - n) s.
Proof.
  revert n; induction s as [|a s IH]; intros [|n] Hn; simpl in *.
  - reflexivity.
  - lia.
  - rewrite substring_all. reflexivity.
  - rewrite <- IH by lia. reflexivity.
Qed.

(** [py_endswith] is what it should be: [s] ends with [suffix] when
    it is some string followed by [suffix]. *)
Lemma py_endswith_spec (s suffix : string) :
  py_endswith s suffix = true <-> exists pre, s = pre ++ suffix.
Proof.
  unfold py_endswith. rewrite andb_true_iff, Nat.leb_le, String.eqb_eq. split.
  - intros [Hle Hsub].
    exists (substring 0 (String.length s - String.length suffix) s).
    pose proof (@substring_split s (String.length s - String.length suffix)) as E.
    replace (String.length s - (String.length s - String.length suffix))%nat
      with (String.length suffix) in E by lia.
    rewrite Hsub in E. apply E. lia.
  - intros [pre ->]. rewrite str_length_app. split; [lia|].
    replace (String.length pre + String.length suffix - String.length suffix)%nat
      with (String.length pre) by lia.
    rewrite substring_skip. apply substring_all.
Qed.

Lemma py_endswith_empty (s : string) : py_endswith s "" = true.
Proof.
  apply py_endswith_spec. exists s.
  induction s as [|a s IH]; simpl; [reflexivity | rewrite <- IH; reflexivity].
Qed.

Lemma matches_ref_spec (name : string) (wf : Workflow) :
  matches_ref name wf = true <->
  wf_name wf = name \/ exists pre, wf_path wf = pre ++ name.
Proof.
  unfold matches_ref. rewrite orb_true_iff, String.eqb_eq, py_endswith_spec.
  reflexivity.
Qed.

Lemma matches_ref_false (name : string) (wf : Workflow) :
  matches_ref name wf = false <->
  wf_name wf <> name /\ forall pre, wf_path wf <> pre ++ name.
Proof.
  rewrite <- not_true_iff_false, matches_ref_spec. split.
  - intros H. split; [intros E; apply H; auto|].
    intros pre E. apply H. right. exists pre. exact E.
  - intros [Hn Hp] [E|[pre E]]; [exact (Hn E) | exact (Hp pre E)].
Qed.

(** ** Paginated lists *)

(** The search stops at the first match: what comes after it, a
    failing page included, is not looked at. *)
Lemma find_workflow_first (name : string) (before : list Workflow)
  (wf : Workflow) (rest : paginated Workflow) :
  Forall (fun x => matches_ref name x = false) before ->
  matches_ref name wf = true ->
  find_workflow name (prepend before (PItem wf rest)) = Ok (Some wf).
Proof.
  intros Hb Hm. induction Hb as [|x before Hx _ IH]; simpl.
  - rewrite Hm. reflexivity.
  - rewrite Hx. exact IH.
Qed.

Lemma find_workflow_none (name : string) (all : list Workflow) :
  Forall (fun x => matches_ref name x = false) all ->
  find_workflow name (prepend all PEnd) = Ok None.
Proof.
  intros H. induction H as [|x all Hx _ IH]; simpl; [reflexivity|].
  rewrite Hx. exact IH.
Qed.

(** Conversely, a search that found [wf] met it first. *)
Lemma find_workflow_inv (name : string) (l : paginated Workflow) (wf : Workflow) :
  find_workflow name l = Ok (Some wf) ->
  exists before rest,
    l = prepend before (PItem wf rest)
    /\ Forall (fun x => matches_ref name x = false) before
    /\ matches_ref name wf = true.
Proof.
  induction l as [|x l IH|e]; simpl; intros H; try discriminate H.
  destruct (matches_ref name x) eqn:Hx.
  - injection H as <-. exists [], l. auto.
  - destruct (IH H) as [before [rest [-> [Hb Hm]]]].
    exists (x :: before), rest. auto.
Qed.

(** [collect] succeeds exactly on pages that end well, with one entry
    per item, in order. *)
Lemma collect_spec {A : Type} (f : A -> value) (l : paginated A) (r : list value) :
  collect f l = Ok r <-> l = prepend (items l) PEnd /\ r = map f (items l).
Proof.
  revert r; induction l as [|a l IH|e]; intros r; simpl.
  - split; [intros H; injection H as <-; auto | intros [_ ->]; reflexivity].
  - split.
    + intros H. apply bind_Ok in H as [r' [Hr H]]. injection H as <-.
      apply IH in Hr as [Hl ->]. rewrite <- Hl. auto.
    + intros [Hl ->]. injection Hl as Hl.
      rewrite (proj2 (IH (map f (items l))) (conj Hl eq_refl)). reflexivity.
  - split; [intros H; discriminate H | intros [H _]; discriminate H].
Qed.

Lemma items_ptake {A : Type} (n : nat) (l : paginated A) :
  items (ptake n l) = firstn n (items l).
Proof.
  revert l; induction n as [|n IH]; intros [|a l|e]; simpl; try reflexivity.
  rewrite IH. reflexivity.
Qed.

Lemma collect_first {A : Type} (f : A -> value) (first : list A) (rest : paginated A) :
  collect f (ptake (List.length first) (prepend first rest)) = Ok (map f first).
Proof.
  induction first as [|a first IH]; simpl.
  - destruct rest; reflexivity.
  - rewrite IH. reflexivity.
Qed.

(** ** Looking a workflow up *)

Section WorkflowLookup.

Variable G : Platform.

Lemma parse_or_none_total (content : string) :
  parse_or_none G content
  = Ok (match safe_load G content with Ok doc => doc | Raise _ => VNone end).
Proof. unfold parse_or_none. destruct (safe_load G content); reflexivity. Qed.

(** Once the workflow is chosen and its file read, the answer. *)
Lemma get_workflow_resolved (repo_name : string) (ref : workflow_ref)
  (token : option string) (w : world G) (repo : Repository G) (wf : Workflow)
  (cf : ContentFile) (text : string) :
  get_repository G repo_name token w = Ok repo ->
  match ref with
  | ById id => get_workflow_by_id G repo id w = Ok wf
  | ByName name => find_workflow name (get_workflows G repo w) = Ok (Some wf)
  end ->
  get_contents G repo (wf_path wf) w = Ok cf ->
  cf_text cf = Ok text ->
  get_workflow G repo_name ref token w
  = Ok (VDict (workflow_dict wf
                 ++ [ (SStr "content", VStr text);
                      (SStr "parsed_yaml",
                       match safe_load G text with
                       | Ok doc => doc
                       | Raise _ => VNone
                       end) ])%list).
Proof.
  intros Hrepo Hwf Hcf Htext. unfold get_workflow. apply reraise_Ok.
  rewrite Hrepo. cbn [bind].
  destruct ref as [id|name]; rewrite Hwf; cbn [bind];
    rewrite Hcf; cbn [bind]; rewrite Htext; cbn [bind];
    rewrite parse_or_none_total; reflexivity.
Qed.

(** X5.  By name, [get_workflow] answers with the first workflow, in
    the order of the API, whose name is the one asked for or whose path
    ends with it; the workflows listed after it are not looked at, so
    a page that fails behind it does no harm.  The answer carries the
    text of the file and the document it loads to. *)
Theorem get_workflow_first_match
  (repo_name name : string) (token : option string) (w : world G)
  (repo : Repository G) (before : list Workflow) (wf : Workflow)
  (rest : paginated Workflow) (cf : ContentFile) (text : string)
  (Hrepo : get_repository G repo_name token w = Ok repo)
  (Hpages : get_workflows G repo w = prepend before (PItem wf rest))
  (Hbefore : Forall (fun x => wf_name x <> name
                              /\ forall pre, wf_path x <> pre ++ name) before)
  (Hmatch : wf_name wf = name \/ exists pre, wf_path wf = pre ++ name)
  (Hfile : get_contents G repo (wf_path wf) w = Ok cf)
  (Htext : cf_text cf = Ok text) :
  exists answer,
    get_workflow G repo_name (ByName name) token w = Ok (VDict answer)
    /\ dict_lookup "id" answer = Some (VInt (wf_id wf))
    /\ dict_lookup "path" answer = Some (VStr (wf_path wf))
    /\ dict_lookup "content" answer = Some (VStr text)
    /\ dict_lookup "parsed_yaml" answer
       = Some (match safe_load G text with Ok doc => doc | Raise _ => VNone end).
Proof.
  eexists. split.
  - apply (@get_workflow_resolved repo_name (ByName name) token w repo wf cf text Hrepo);
      [|exact Hfile|exact Htext].
    rewrite Hpages. apply find_workflow_first.
    + eapply Forall_impl; [|exact Hbefore]. intros x Hx.
      apply matches_ref_false, Hx.
    + apply matches_ref_spec, Hmatch.
  - repeat split.
Qed.

(** X6.  When the pages end and no workflow has the name or a path
    that ends with it, [get_workflow] raises a [ValueError] that says
    so after its own prefix, and so does [list_workflow_runs] for a
    non-empty name. *)
Theorem workflow_not_found
  (repo_name name : string) (token : option string) (w : world G)
  (repo : Repository G) (all : list Workflow)
  (Hrepo : get_repository G repo_name token w = Ok repo)
  (Hpages : get_workflows G repo w = prepend all PEnd)
  (Hnone : Forall (fun x => wf_name x <> name
                            /\ forall pre, wf_path x <> pre ++ name) all) :
  get_workflow G repo_name (ByName name) token w
  = value_error ("Error getting workflow " ++ name ++ " for " ++ repo_name
                 ++ ": Workflow " ++ name ++ " not found")
  /\ (name <> "" ->
      forall status limit,
        list_workflow_runs G repo_name (Some (ByName name)) status limit token w
        = value_error ("Error listing workflow runs for " ++ repo_name
                       ++ ": Workflow " ++ name ++ " not found")).
Proof.
  assert (Hfind : find_workflow name (get_workflows G repo w) = Ok None).
  { rewrite Hpages. apply find_workflow_none.
    eapply Forall_impl; [|exact Hnone]. intros x Hx. apply matches_ref_false, Hx. }
  split.
  - unfold get_workflow. rewrite Hrepo. cbn [bind]. rewrite Hfind.
    cbn [bind ref_str]. rewrite reraise_value_error, !str_app_assoc. reflexivity.
  - intros Hname status limit. unfold list_workflow_runs, runs_filter.
    rewrite Hrepo. cbn [bind ref_truthy].
    destruct (String.eqb_spec name "") as [E|_]; [now elim Hname|].
    cbn [negb]. rewrite Hfind. cbn [bind].
    change (@bind (option Workflow)) with (@bind (option Workflow)).
    unfold value_error at 1. cbn [bind].
    rewrite reraise_Raise. cbn [exn_str]. rewrite !str_app_assoc. reflexivity.
Qed.

(** X7.  [get_workflow] never fails because of the YAML in the file:
    whether it raises, and what, is the same with any loader; and
    when it answers, the answer holds the text as read and, under
    ['parsed_yaml'], the document it loads to, or [None] when it does
    not load. *)
Theorem get_workflow_ignores_yaml_errors
  (repo_name : string) (ref : workflow_ref) (token : option string) (w : world G) :
  (forall load e,
     get_workflow G repo_name ref token w = Raise e <->
     get_workflow (with_loader G load) repo_name ref token w = Raise e)
  /\ (forall answer,
        get_workflow G repo_name ref token w = Ok answer ->
        exists entries text,
          answer = VDict entries
          /\ dict_lookup "content" entries = Some (VStr text)
          /\ dict_lookup "parsed_yaml" entries
             = Some (match safe_load G text with
                     | Ok doc => doc
                     | Raise _ => VNone
                     end)).
Proof.
  split.
  - intros load e. unfold get_workflow.
    change (get_repository (with_loader G load)) with (get_repository G).
    destruct (get_repository G repo_name token w) as [repo|e0];
      cbn [bind]; [|reflexivity].
    change (get_workflow_by_id (with_loader G load)) with (get_workflow_by_id G).
    change (get_workflows (with_loader G load)) with (get_workflows G).
    change (get_contents (with_loader G load)) with (get_contents G).
    destruct (match ref with
              | ById id => wf <- get_workflow_by_id G repo id w ;; Ok (Some wf)
              | ByName name => find_workflow name (get_workflows G repo w)
              end) as [[wf|]|e0]; cbn [bind]; try reflexivity.
    destruct (get_contents G repo (wf_path wf) w) as [cf|e0];
      cbn [bind]; [|reflexivity].
    destruct (cf_text cf) as [text|e0]; cbn [bind]; [|reflexivity].
    rewrite parse_or_none_total. unfold parse_or_none.
    change (safe_load (with_loader G load)) with load.
    destruct (load text) as [doc|e0];
      cbn [try_except dispatch issubclass exn_class bind];
      split; intros H; apply reraise_inv in H as [inner [H _]]; discriminate H.
  - intros answer H. unfold get_workflow in H. apply reraise_Ok in H.
    apply bind_Ok in H as [repo [_ H]].
    apply bind_Ok in H as [[wf|] [_ H]]; [|discriminate H].
    apply bind_Ok in H as [cf [_ H]].
    apply bind_Ok in H as [text [_ H]].
    rewrite parse_or_none_total in H. cbn [bind] in H. injection H as <-.
    eexists. exists text. repeat split.
Qed.

(** X8.  A reference that is falsy, the id [0] or the empty name,
    does not filter the runs: [list_workflow_runs] answers as without
    a reference and looks no workflow up.  [get_workflow] reads the
    empty name differently: every path ends with it, so the first
    workflow of the repository is the answer. *)
Theorem falsy_references
  (repo_name : string) (token : option string) (w : world G) :
  (forall ref status limit,
     ref_truthy ref = false ->
     list_workflow_runs G repo_name ref status limit token w
     = list_workflow_runs G repo_name None status limit token w)
  /\ ref_truthy (Some (ById 0)) = false
  /\ ref_truthy (Some (ByName "")) = false
  /\ (forall repo wf rest cf text,
        get_repository G repo_name token w = Ok repo ->
        get_workflows G repo w = PItem wf rest ->
        get_contents G repo (wf_path wf) w = Ok cf ->
        cf_text cf = Ok text ->
        exists answer,
          get_workflow G repo_name (ByName "") token w = Ok (VDict answer)
          /\ dict_lookup "id" answer = Some (VInt (wf_id wf))).
Proof.
  split; [|split; [reflexivity | split; [reflexivity|]]].
  - intros ref status limit Hf. unfold list_workflow_runs, runs_filter.
    rewrite Hf. reflexivity.
  - intros repo wf rest cf text Hrepo Hpages Hfile Htext.
    eexists. split.
    + apply (@get_workflow_resolved repo_name (ByName "") token w repo wf cf text Hrepo);
        [|exact Hfile|exact Htext].
      rewrite Hpages. cbn [find_workflow]. unfold matches_ref.
      rewrite py_endswith_empty, orb_true_r. reflexivity.
    + reflexivity.
Qed.

(** X9.  [list_workflow_runs] answers with at most [limit] runs: the
    first [limit] of the pages, in order, or all of them when there
    are fewer.  Only these are fetched: when the pages hold [limit]
    runs, what lies behind them, a failing page included, does not
    matter. *)
Theorem list_workflow_runs_limit
  (repo_name : string) (ref : option workflow_ref) (status : option string)
  (limit : Z) (token : option string) (w : world G)
  (repo : Repository G) (workflow : option Workflow)
  (runs : paginated WorkflowRun)
  (Hlimit : (0 <= limit)%Z)
  (Hslice : forall l, slice G l limit = ptake (Z.to_nat limit) l)
  (Hrepo : get_repository G repo_name token w = Ok repo)
  (Hfilter : runs_filter G repo ref w = Ok workflow)
  (Hruns : match workflow with
           | Some wf => get_runs G wf status w
           | None => get_workflow_runs G repo status w
           end = Ok runs) :
  (forall answer,
     list_workflow_runs G repo_name ref status limit token w = Ok answer ->
     exists entries,
       answer = VList entries
       /\ (List.length entries <= Z.to_nat limit)%nat
       /\ entries = map run_dict (firstn (Z.to_nat limit) (items runs)))
  /\ (forall first rest,
        runs = prepend first rest ->
        List.length first = Z.to_nat limit ->
        list_workflow_runs G repo_name ref status limit token w
        = Ok (VList (map run_dict first))).
Proof.
  assert (E : list_workflow_runs G repo_name ref status limit token w
              = reraise ("Error listing workflow runs for " ++ repo_name ++ ": ")
                  (result <- collect run_dict (ptake (Z.to_nat limit) runs) ;;
                   Ok (VList result))).
  { unfold list_workflow_runs. rewrite Hrepo. cbn [bind]. rewrite Hfilter.
    cbn [bind]. rewrite Hruns. cbn [bind]. rewrite Hslice. reflexivity. }
  rewrite E. split.
  - intros answer H. apply reraise_Ok in H.
    apply bind_Ok in H as [entries [Hc H]]. injection H as <-.
    apply collect_spec in Hc as [_ ->]. rewrite items_ptake.
    eexists. split; [reflexivity|]. split; [|reflexivity].
    rewrite length_map. apply firstn_le_length.
  - intros first rest -> Hlen. apply reraise_Ok.
    rewrite <- Hlen, collect_first. reflexivity.
Qed.

(** X10.  [list_workflows] answers with one entry per workflow, in
    the order of the API, and only when every page could be fetched:
    a page that fails makes the call fail, whatever was fetched
    before; there is no partial list. *)
Theorem list_workflows_all_or_nothing
  (repo_name : string) (token : option string) (w : world G)
  (repo : Repository G)
  (Hrepo : get_repository G repo_name token w = Ok repo) :
  (forall answer,
     list_workflows G repo_name token w = Ok answer <->
     get_workflows G repo w = prepend (items (get_workflows G repo w)) PEnd
     /\ answer = VList (map (fun wf => VDict (workflow_dict wf))
                            (items (get_workflows G repo w))))
  /\ (forall before e,
        get_workflows G repo w = prepend before (PFail e) ->
        list_workflows G repo_name token w
        = value_error ("Error listing workflows for " ++ repo_name ++ ": "
                       ++ exn_str e)).
Proof.
  split.
  - intros answer. unfold list_workflows. rewrite reraise_Ok, Hrepo. cbn [bind].
    split.
    + intros H. apply bind_Ok in H as [r [Hc H]]. injection H as <-.
      apply collect_spec in Hc as [Hp ->]. auto.
    + intros [Hp ->].
      rewrite (proj2 (collect_spec _ _ _) (conj Hp eq_refl)). reflexivity.
  - intros before e Hp. unfold list_workflows. rewrite Hrepo. cbn [bind].
    rewrite Hp.
    assert (Hc : forall A (f : A -> value) (l : list A),
               collect f (prepend l (PFail e)) = Raise e).
    { intros A f l. induction l as [|a l IH]; simpl; [reflexivity|].
      rewrite IH. reflexivity. }
    rewrite Hc. cbn [bind]. rewrite reraise_Raise, !str_app_assoc. reflexivity.
Qed.

End WorkflowLookup.

(** ** Writing a workflow file *)

Lemma find_by_path_found (path : string) (l : paginated Workflow) (wf : Workflow) :
  find_by_path path l = Ok (Some wf) -> wf_path wf = path.
Proof.
  induction l as [|x l IH|e]; simpl; intros H; try discriminate H.
  destruct (String.eqb_spec (wf_path x) path) as [E|_].
  - injection H as <-. exact E.
  - apply IH, H.
Qed.

Section Writing.

Variable G : Platform.

Variables repo_name workflow_path content commit_message : string.
Variable token : option string.
Variable w : world G.

Let prefix : string :=
  "Error creating/updating workflow " ++ workflow_path ++ " for " ++ repo_name ++ ": ".

(** X11.  Nothing is written before the text has loaded and the
    repository has been reached.  A text that the loader refuses, for
    whatever reason, gives a [ValueError] that says
    ["Invalid YAML content: "] and the reason, without any request;
    a repository that cannot be reached gives its own error; in both
    cases the state of GitHub is the one before the call. *)
Theorem no_write_before_checks :
  (forall e, safe_load G content = Raise e ->
     create_or_update_workflow G repo_name workflow_path content commit_message token w
     = (value_error (prefix ++ "Invalid YAML content: " ++ exn_str e), w))
  /\ (forall doc e,
        safe_load G content = Ok doc ->
        get_repository G repo_name token w = Raise e ->
        create_or_update_workflow G repo_name workflow_path content commit_message
          token w
        = (value_error (prefix ++ exn_str e), w)).
Proof.
  unfold create_or_update_workflow, create_or_update_body. split.
  - intros e ->. unfold reraise, try_except, value_error.
    cbn [dispatch issubclass exn_class exn_str]. reflexivity.
  - intros doc e -> ->. reflexivity.
Qed.

(** X12.  The document the text loads to is not looked at: with any
    other loader that accepts the text, the call returns or raises the
    same and leaves the same state.  What [validate_workflow] would say
    of the text plays no part. *)
Theorem create_or_update_ignores_document
  (load : string -> result value) (doc doc' : value)
  (Hload : safe_load G content = Ok doc)
  (Hload' : load content = Ok doc') :
  create_or_update_workflow (with_loader G load) repo_name workflow_path content
    commit_message token w
  = create_or_update_workflow G repo_name workflow_path content commit_message token w.
Proof.
  unfold create_or_update_workflow, create_or_update_body.
  change (safe_load (with_loader G load)) with load.
  rewrite Hload, Hload'. reflexivity.
Qed.

(** X13.  When the call answers, the answer names the path that was
    asked for, also when it describes the workflow found in the list,
    and its message says "updated" exactly when the file could be read
    before the write, "created" otherwise, whichever of the two writes
    went through. *)
Theorem written_answer (answer : value) (w' : world G)
  (Hanswer : create_or_update_workflow G repo_name workflow_path content
               commit_message token w = (Ok answer, w')) :
  exists repo entries,
    get_repository G repo_name token w = Ok repo
    /\ answer = VDict entries
    /\ dict_lookup "path" entries = Some (VStr workflow_path)
    /\ let verb := match get_contents G repo workflow_path w with
                   | Ok _ => "updated"
                   | Raise _ => "created"
                   end in
       dict_lookup "message" entries
       = Some (VStr ("Successfully " ++ verb ++ " workflow file"))
       \/ dict_lookup "message" entries
          = Some (VStr ("Workflow file " ++ verb
                        ++ ", but not yet available as a workflow")).
Proof.
  unfold create_or_update_workflow, create_or_update_body in Hanswer.
  destruct (reraise "Invalid YAML content: " (safe_load G content)) as [doc|e];
    [|discriminate Hanswer].
  destruct (get_repository G repo_name token w) as [repo|e];
    [|discriminate Hanswer].
  exists repo.
  assert (Hverb : forall file out,
             write_file G repo workflow_path content commit_message w = (file, out) ->
             verb file = match get_contents G repo workflow_path w with
                         | Ok _ => "updated"
                         | Raise _ => "created"
                         end).
  { unfold write_file. intros file out.
    destruct (get_contents G repo workflow_path w) as [f|e].
    - destruct (update_file G repo workflow_path commit_message content (cf_sha f) w)
        as [[u|e] w1]; intros H; injection H as <- _; reflexivity.
    - intros H; injection H as <- _; reflexivity. }
  destruct (write_file G repo workflow_path content commit_message w)
    as [file [[u|e] w1]] eqn:Hwrite; [|discriminate Hanswer].
  specialize (Hverb file _ eq_refl). rewrite <- Hverb.
  injection Hanswer as Hanswer _. apply reraise_Ok in Hanswer.
  apply bind_Ok in Hanswer as [found [Hfound Hanswer]]. injection Hanswer as <-.
  destruct found as [wf|]; cbn [written_dict].
  - apply find_by_path_found in Hfound. rewrite Hfound.
    eexists. repeat split. left. reflexivity.
  - eexists. repeat split. right. reflexivity.
Qed.

(** X14.  When the file exists and [update_file] raises, [create_file]
    is tried on the state the update left.  If it raises too, the
    error that is reported is the one of [create_file]: the reason why
    the update failed is lost. *)
Theorem update_error_is_lost
  (doc : value) (repo : Repository G) (file : ContentFile)
  (e_update e_create : exn) (w1 w2 : world G)
  (Hload : safe_load G content = Ok doc)
  (Hrepo : get_repository G repo_name token w = Ok repo)
  (Hfile : get_contents G repo workflow_path w = Ok file)
  (Hupdate : update_file G repo workflow_path commit_message content (cf_sha file) w
             = (Raise e_update, w1))
  (Hcreate : create_file G repo workflow_path commit_message content w1
             = (Raise e_create, w2)) :
  create_or_update_workflow G repo_name workflow_path content commit_message token w
  = (value_error (prefix ++ exn_str e_create), w2).
Proof.
  unfold create_or_update_workflow, create_or_update_body, write_file.
  rewrite Hload, Hrepo. cbn [reraise try_except].
  rewrite Hfile, Hupdate, Hcreate. reflexivity.
Qed.

End Writing.

(** ** Concrete runs *)

Lemma tools_without_token_witness :
  let G := Demo.platform Demo.no_env in
  let repo_name := "octocat/Hello-World" in
  let w := Demo.initial in
  let cause := "Error accessing repository " ++ repo_name ++ ": " ++ no_token_message in
  list_workflows_tool G repo_name None w
  = value_error ("Error listing workflows: Error listing workflows for "
                 ++ repo_name ++ ": " ++ cause)
  /\ (forall ref,
        get_workflow_tool G repo_name ref None w
        = value_error ("Error getting workflow: Error getting workflow "
                       ++ ref_str ref ++ " for " ++ repo_name ++ ": " ++ cause))
  /\ (forall ref status limit,
        list_workflow_runs_tool G repo_name ref status limit None w
        = value_error ("Error listing workflow runs: Error listing workflow runs for "
                       ++ repo_name ++ ": " ++ cause))
  /\ (forall path content message doc,
        safe_load G content = Ok doc ->
        create_or_update_workflow_tool G repo_name path content message None w
        = (value_error ("Error creating/updating workflow: "
                        ++ "Error creating/updating workflow " ++ path
                        ++ " for " ++ repo_name ++ ": " ++ cause), w)).
Proof.
  intros G repo_name w.
  apply (@tools_without_token G repo_name None w).
  reflexivity.
Defined.

Lemma get_workflow_first_match_witness :
  exists answer,
    get_workflow Demo.hub "octocat/flaky" (ByName "ci.yml") None Demo.initial
    = Ok (VDict answer)
    /\ dict_lookup "id" answer = Some (VInt (wf_id Demo.ci))
    /\ dict_lookup "path" answer = Some (VStr (wf_path Demo.ci))
    /\ dict_lookup "content" answer = Some (VStr "{name: CI}")
    /\ dict_lookup "parsed_yaml" answer
       = Some (match safe_load Demo.hub "{name: CI}" with
               | Ok doc => doc
               | Raise _ => VNone
               end).
Proof.
  apply (@get_workflow_first_match Demo.hub "octocat/flaky" "ci.yml" None
           Demo.initial "octocat/flaky" [] Demo.ci (PFail Demo.bad_gateway)
           (mk_content_file "sha-of-.github/workflows/ci.yml" (Ok "{name: CI}"))
           "{name: CI}").
  - reflexivity.
  - reflexivity.
  - constructor.
  - right. exists ".github/workflows/". reflexivity.
  - reflexivity.
  - reflexivity.
Defined.

Lemma workflow_not_found_witness :
  get_workflow Demo.hub "octocat/Hello-World" (ByName "zz") None Demo.initial
  = value_error ("Error getting workflow " ++ "zz" ++ " for " ++ "octocat/Hello-World"
                 ++ ": Workflow " ++ "zz" ++ " not found")
  /\ ("zz" <> "" ->
      forall status limit,
        list_workflow_runs Demo.hub "octocat/Hello-World" (Some (ByName "zz"))
          status limit None Demo.initial
        = value_error ("Error listing workflow runs for " ++ "octocat/Hello-World"
                       ++ ": Workflow " ++ "zz" ++ " not found")).
Proof.
  apply (@workflow_not_found Demo.hub "octocat/Hello-World" "zz" None Demo.initial
           "octocat/Hello-World" [Demo.ci; Demo.deploy]).
  - reflexivity.
  - reflexivity.
  - constructor; [apply matches_ref_false; reflexivity|].
    constructor; [apply matches_ref_false; reflexivity|].
    constructor.
Defined.

Lemma list_workflow_runs_limit_witness :
  let runs := PItem (Demo.run 3) (PItem (Demo.run 2) (PItem (Demo.run 1)
                (PFail Demo.bad_gateway))) in
  (forall answer,
     list_workflow_runs Demo.hub "octocat/Hello-World" (Some (ById 1)) None 2 None
       Demo.initial = Ok answer ->
     exists entries,
       answer = VList entries
       /\ (List.length entries <= Z.to_nat 2)%nat
       /\ entries = map run_dict (firstn (Z.to_nat 2) (items runs)))
  /\ (forall first rest,
        runs = prepend first rest ->
        List.length first = Z.to_nat 2 ->
        list_workflow_runs Demo.hub "octocat/Hello-World" (Some (ById 1)) None 2 None
          Demo.initial
        = Ok (VList (map run_dict first))).
Proof.
  intros runs.
  apply (@list_workflow_runs_limit Demo.hub "octocat/Hello-World" (Some (ById 1))
           None 2%Z None Demo.initial "octocat/Hello-World" (Some Demo.ci) runs).
  - discriminate.
  - reflexivity.
  - reflexivity.
  - reflexivity.
  - reflexivity.
Defined.

Lemma list_workflows_all_or_nothing_witness :
  let G := Demo.hub in
  let repo := "octocat/flaky" in
  let w := Demo.initial in
  (forall answer,
     list_workflows G repo None w = Ok answer <->
     get_workflows G repo w = prepend (items (get_workflows G repo w)) PEnd
     /\ answer = VList (map (fun wf => VDict (workflow_dict wf))
                            (items (get_workflows G repo w))))
  /\ (forall before e,
        get_workflows G repo w = prepend before (PFail e) ->
        list_workflows G repo None w
        = value_error ("Error listing workflows for " ++ repo ++ ": " ++ exn_str e)).
Proof.
  intros G repo w.
  apply (@list_workflows_all_or_nothing G repo None w repo).
  reflexivity.
Defined.

Lemma create_or_update_ignores_document_witness :
  create_or_update_workflow (with_loader Demo.hub (fun _ => Ok VNone))
    "octocat/Hello-World" "new.yml" "{name: CI}" "Add workflow" None Demo.initial
  = create_or_update_workflow Demo.hub
      "octocat/Hello-World" "new.yml" "{name: CI}" "Add workflow" None Demo.initial.
Proof.
  apply (@create_or_update_ignores_document Demo.hub "octocat/Hello-World" "new.yml"
           "{name: CI}" "Add workflow" None Demo.initial (fun _ => Ok VNone)
           (VDict [ (SStr "name", VStr "CI") ]) VNone);
    reflexivity.
Defined.

Lemma written_answer_witness :
  exists repo entries,
    get_repository Demo.hub "octocat/Hello-World" None Demo.initial = Ok repo
    /\ VDict [ (SStr "path", VStr "new.yml");
               (SStr "message",
                VStr "Workflow file created, but not yet available as a workflow") ]
       = VDict entries
    /\ dict_lookup "path" entries = Some (VStr "new.yml")
    /\ let verb := match get_contents Demo.hub repo "new.yml" Demo.initial with
                   | Ok _ => "updated"
                   | Raise _ => "created"
                   end in
       dict_lookup "message" entries
       = Some (VStr ("Successfully " ++ verb ++ " workflow file"))
       \/ dict_lookup "message" entries
          = Some (VStr ("Workflow file " ++ verb
                        ++ ", but not yet available as a workflow")).
Proof.
  apply (@written_answer Demo.hub "octocat/Hello-World" "new.yml" "{}" "Add workflow"
           None Demo.initial
           (VDict [ (SStr "path", VStr "new.yml");
                    (SStr "message",
                     VStr "Workflow file created, but not yet available as a workflow") ])
           (Demo.initial ++ [("new.yml", "{}")])%list).
  reflexivity.
Defined.

Lemma update_error_is_lost_witness :
  create_or_update_workflow Demo.hub "octocat/Hello-World" ".github/workflows/ci.yml"
    "{}" "" None Demo.initial
  = (value_error ("Error creating/updating workflow .github/workflows/ci.yml"
                  ++ " for octocat/Hello-World: 422 sha was not supplied"),
     Demo.initial).
Proof.
  apply (@update_error_is_lost Demo.hub "octocat/Hello-World" ".github/workflows/ci.yml"
           "{}" "" None Demo.initial (VDict []) "octocat/Hello-World"
           (mk_content_file "sha-of-.github/workflows/ci.yml" (Ok "{name: CI}"))
           Demo.unprocessable Demo.missing_sha Demo.initial Demo.initial);
    reflexivity.
Defined.

(** ** The shape of every report *)

Lemma check_best_practices_cases (doc : value) (vr r : report) :
  check_best_practices doc vr = Ok r ->
  r = vr \/ r = add_suggestion checkout_hint vr.
Proof.
  unfold check_best_practices. intros H.
  apply bind_Ok in H as [jobs [_ H]].
  destruct (py_truthy jobs).
  - apply bind_Ok in H as [jobs' [_ H]].
    apply bind_Ok in H as [entries [_ H]].
    apply bind_Ok in H as [[|] [_ H]]; injection H as <-; auto.
  - injection H as <-; auto.
Qed.

(** The report of the checks on a truthy document of any kind, piece
    by piece. *)
Lemma validate_document_anatomy (doc : value) (r : report) :
  py_truthy doc = true ->
  validate_document doc = Ok r ->
  exists has_name on has_jobs ws,
    py_in "name" doc = Ok has_name
    /\ has_on doc = Ok on
    /\ py_in "jobs" doc = Ok has_jobs
    /\ valid r = on && has_jobs
    /\ warnings r
       = ((if has_name then [] else ["Missing workflow name"])
          ++ (if on then [] else ["Missing trigger events (on:)"])
          ++ (if has_jobs then ws else ["Missing jobs section"]))%list
    /\ (suggestions r = [] \/ (has_jobs = true /\ suggestions r = [checkout_hint])).
Proof.
  unfold validate_document. intros -> H. cbn [negb] in H.
  apply bind_Ok in H as [vr1 [H1 H]].
  apply bind_Ok in H as [vr2 [H2 H]].
  unfold check_name in H1. apply bind_Ok in H1 as [has_name [Hname H1]].
  unfold check_on in H2. apply bind_Ok in H2 as [on [Hon H2]].
  unfold check_jobs_section in H. apply bind_Ok in H as [has_jobs [Hjobs H]].
  injection H1 as <-. injection H2 as <-.
  destruct has_jobs; cbn [negb] in H.
  - apply bind_Ok in H as [j [_ H]].
    apply bind_Ok in H as [entries [_ H]].
    apply bind_Ok in H as [vr' [Hc H]].
    rewrite check_jobs_frame in Hc.
    apply bind_Ok in Hc as [ws [_ Hc]]. injection Hc as <-.
    exists has_name, on, true, ws.
    apply check_best_practices_cases in H as [-> | ->];
      destruct has_name, on; cbn; auto 10.
  - injection H as <-. exists has_name, on, false, [].
    destruct has_name, on; cbn; auto 10.
Qed.

(** X15.  Every report explains itself: an invalid report has at
    least one warning; the suggestions are nothing or the checkout
    hint alone; and the hint is only given for a document that has
    the key ['jobs']. *)
Theorem report_invariants
  (load : string -> result value) (content : string) (r : report)
  (Hret : validate_workflow load content = Ok r) :
  (valid r = false -> warnings r <> [])
  /\ (suggestions r = [] \/ suggestions r = [checkout_hint])
  /\ (suggestions r <> [] ->
      exists doc, load content = Ok doc /\ py_in "jobs" doc = Ok true).
Proof.
  pose proof (validate_workflow_cases load content) as Hc.
  unfold validate_body in Hc.
  destruct (load content) as [doc|e]; cbn [bind] in Hc.
  - destruct (validate_document doc) as [r'|e] eqn:Hdoc.
    + rewrite Hc in Hret. injection Hret as <-.
      destruct (py_truthy doc) eqn:Ht.
      * destruct (validate_document_anatomy doc Ht Hdoc)
          as [hn [on [hj [ws [_ [_ [Hj [Hv [Hw Hs]]]]]]]]].
        split; [|split].
        -- intros Hf. rewrite Hv in Hf. rewrite Hw.
           destruct hn; [|discriminate].
           destruct on; [|discriminate].
           destruct hj; [discriminate Hf | discriminate].
        -- destruct Hs as [Hs | [_ Hs]]; auto.
        -- intros Hne. destruct Hs as [Hs | [-> _]]; [now elim Hne|].
           exists doc. auto.
      * unfold validate_document in Hdoc. rewrite Ht in Hdoc.
        injection Hdoc as <-. cbn.
        split; [discriminate | split; [auto | intros H; now elim H]].
    + rewrite Hc in Hret. injection Hret as <-.
      destruct (handler_report_shape e) as [_ [Hl Hs]].
      split; [|split; [auto | intros H; now elim H]].
      intros _ Hw. rewrite Hw in Hl. discriminate Hl.
  - rewrite Hc in Hret. injection Hret as <-.
    destruct (handler_report_shape e) as [_ [Hl Hs]].
    split; [|split; [auto | intros H; now elim H]].
    intros _ Hw. rewrite Hw in Hl. discriminate Hl.
Qed.

Lemma report_invariants_witness :
  let r := mk_report false
             [ "Missing trigger events (on:)"; "Missing jobs section" ] [] in
  (valid r = false -> warnings r <> [])
  /\ (suggestions r = [] \/ suggestions r = [checkout_hint])
  /\ (suggestions r <> [] ->
      exists doc, sample_load "{name: CI}" = Ok doc /\ py_in "jobs" doc = Ok true).
Proof.
  intros r.
  apply (@report_invariants sample_load "{name: CI}" r).
  reflexivity.
Defined.

Lemma jobs_warnings_bound (jobs : list (scalar * value)) (ws : list string) :
  jobs_warnings jobs = Ok ws -> (List.length ws <= 2 * List.length jobs)%nat.
Proof.
  revert ws; induction jobs as [|[job_id job] jobs IH]; intros ws H; simpl in H.
  - injection H as <-. simpl. lia.
  - apply bind_Ok in H as [w1 [H1 H]].
    apply bind_Ok in H as [w2 [H2 H]]. injection H as <-.
    specialize (IH w2 H2). rewrite length_app. cbn [List.length].
    assert (List.length w1 <= 2)%nat; [|lia].
    unfold job_warnings, check_job in H1.
    destruct (py_truthy job); cbn [negb bind] in H1.
    + destruct (py_in "runs-on" job) as [[|]|e]; cbn [bind] in H1;
        try discriminate H1;
        (destruct (py_in "steps" job) as [[|]|e']; cbn [bind] in H1;
         try discriminate H1; injection H1 as <-; simpl; lia).
    + injection H1 as <-. simpl. lia.
Qed.

(** X16.  The report of a mapping document with a jobs mapping, when
    the checks complete, has at most two warnings for the top-level
    keys and two for each job. *)
Theorem warnings_bound
  (load : string -> result value) (content : string)
  (d jobs : list (scalar * value)) (r : report)
  (Hparse : load content = Ok (VDict d))
  (Hjobs : dict_lookup "jobs" d = Some (VDict jobs))
  (Hbody : validate_body load content = Ok r) :
  (List.length (warnings r) <= 2 + 2 * List.length jobs)%nat.
Proof.
  unfold validate_body in Hbody. rewrite Hparse in Hbody. cbn [bind] in Hbody.
  destruct (validate_document_jobs_warnings _ Hjobs Hbody) as [ws [Hws [Hw _]]].
  apply jobs_warnings_bound in Hws. rewrite Hw, length_app.
  assert (List.length (top_warnings d) <= 2)%nat; [|lia].
  unfold top_warnings. destruct (has_key "name" d), (on_present d); simpl; lia.
Qed.

Lemma warnings_bound_witness :
  (List.length (warnings (mk_report true
                            [ "Missing runs-on in job: build";
                              "Missing steps in job: build" ] [checkout_hint]))
   <= 2 + 2 * List.length [ (SStr "build", VDict [ (SStr "name", VStr "x") ]) ])%nat.
Proof.
  apply (@warnings_bound sample_load "{name: CI, on: push, jobs: {build: {name: x}}}"
           [ (SStr "name", VStr "CI"); (SBool true, VStr "push");
             (SStr "jobs", VDict [ (SStr "build", VDict [ (SStr "name", VStr "x") ]) ]) ]
           [ (SStr "build", VDict [ (SStr "name", VStr "x") ]) ]);
    reflexivity.
Defined.
